(** * Shopify GraphQL proxy: scope validation, query forwarding, HTTP adapter

    A shallow embedding of [shopify-graphql-core.ts] and [graphql-server.ts].

    - JavaScript strings are sequences of UTF-16 code units, [list N].
    - Parsed JSON values are an inductive type; [undefined] is the [None]
      of [option json].
    - [async] functions are trees of [fetch] calls ([prog]): a run against
      a platform yields the list of calls made and either the returned
      value or the thrown exception.
    - [JSON.stringify] and the text of the engine's own [TypeError]s are
      taken as parameters of the embedding. *)

From Stdlib Require Import NArith ZArith String Ascii Lia.
From Stdlib Require Import Floats.PrimFloat Floats.SpecFloat Floats.FloatOps.
From stdpp Require Import base option list countable gmap.

Local Open Scope N_scope.
Set Warnings "-register-all".

(** ** Strings *)

(** A JavaScript string: its UTF-16 code units. *)
Abbreviation jsstring := (list N).

Module JsString.

(** The bytes of a source literal (UTF-8). *)
Fixpoint bytes (s : string) : list N :=
  match s with
  | EmptyString => []
  | String a r => N_of_ascii a :: bytes r
  end.

(** UTF-8 bytes to code points (the literals of this file are well formed). *)
Fixpoint code_points (bs : list N) : list N :=
  match bs with
  | [] => []
  | b :: r =>
      if b <? 128 then b :: code_points r
      else if b <? 224 then
        match r with
        | b1 :: r1 =>
            N.lor (N.shiftl (N.land b 31) 6) (N.land b1 63) :: code_points r1
        | _ => []
        end
      else if b <? 240 then
        match r with
        | b1 :: (b2 :: r2) =>
            N.lor (N.shiftl (N.land b 15) 12)
              (N.lor (N.shiftl (N.land b1 63) 6) (N.land b2 63))
              :: code_points r2
        | _ => []
        end
      else
        match r with
        | b1 :: (b2 :: (b3 :: r3)) =>
            N.lor (N.shiftl (N.land b 7) 18)
              (N.lor (N.shiftl (N.land b1 63) 12)
                 (N.lor (N.shiftl (N.land b2 63) 6) (N.land b3 63)))
              :: code_points r3
        | _ => []
        end
  end.

(** A code point as one code unit or a surrogate pair. *)
Definition code_units (cp : N) : list N :=
  if cp <? 65536 then [cp]
  else
    let v := cp - 65536 in
    [55296 + N.shiftr v 10; 56320 + N.land v 1023].

(** The JavaScript string denoted by a source literal. *)
Definition lit (s : string) : jsstring :=
  concat (map code_units (code_points (bytes s))).

(** WhiteSpace and LineTerminator code points, the ones [trim] strips. *)
Definition isWhiteSpace (c : N) : bool :=
  (c =? 9) || (c =? 10) || (c =? 11) || (c =? 12) || (c =? 13)
  || (c =? 32) || (c =? 160) || (c =? 5760)
  || ((8192 <=? c) && (c <=? 8202))
  || (c =? 8232) || (c =? 8233) || (c =? 8239) || (c =? 8287)
  || (c =? 12288) || (c =? 65279).

Fixpoint trimStart (s : jsstring) : jsstring :=
  match s with
  | [] => []
  | c :: r => if isWhiteSpace c then trimStart r else s
  end.

Definition trimEnd (s : jsstring) : jsstring := rev (trimStart (rev s)).

(** [s.trim()] *)
Definition trim (s : jsstring) : jsstring := trimEnd (trimStart s).

(** [s.split(sep)] for a separator of one code unit. *)
Fixpoint split (sep : N) (s : jsstring) : list jsstring :=
  match s with
  | [] => [[]]
  | c :: r =>
      if c =? sep then [] :: split sep r
      else
        match split sep r with
        | [] => [[c]]
        | field :: fields => (c :: field) :: fields
        end
  end.

(** [parts.join(sep)] *)
Fixpoint join (sep : jsstring) (parts : list jsstring) : jsstring :=
  match parts with
  | [] => []
  | [p] => p
  | p :: rest => p ++ sep ++ join sep rest
  end.

(** [s.startsWith(p)] *)
Fixpoint startsWith (p s : jsstring) : bool :=
  match p, s with
  | [], _ => true
  | _ :: _, [] => false
  | a :: p', b :: s' => (a =? b) && startsWith p' s'
  end.

(** [s.slice(n)] for a non-negative [n]. *)
Definition slice (n : nat) (s : jsstring) : jsstring := drop n s.

(** [Boolean(s)]: a string is truthy when it is not empty. *)
Definition nonEmpty (s : jsstring) : bool :=
  match s with [] => false | _ :: _ => true end.

(** [String(n)] for a non-negative integer. *)
Fixpoint digits (d : Decimal.uint) : jsstring :=
  match d with
  | Decimal.Nil => []
  | Decimal.D0 r => 48 :: digits r
  | Decimal.D1 r => 49 :: digits r
  | Decimal.D2 r => 50 :: digits r
  | Decimal.D3 r => 51 :: digits r
  | Decimal.D4 r => 52 :: digits r
  | Decimal.D5 r => 53 :: digits r
  | Decimal.D6 r => 54 :: digits r
  | Decimal.D7 r => 55 :: digits r
  | Decimal.D8 r => 56 :: digits r
  | Decimal.D9 r => 57 :: digits r
  end.

Definition ofN (n : N) : jsstring := digits (N.to_uint n).

Arguments lit : simpl never.
Arguments ofN : simpl never.

End JsString.

Import JsString.

(** ** Values *)

(** A value produced by [JSON.parse] (or by [res.json()]).  The fields of an
    object are its own properties in the order they are enumerated, the
    first binding of a name being the property. *)
Inductive json : Type :=
| JNull
| JBool (b : bool)
| JNum (x : float)
| JStr (s : jsstring)
| JArr (items : list json)
| JObj (fields : list (jsstring * json)).

(** Own-property lookup. *)
Fixpoint assoc (name : jsstring) (fields : list (jsstring * json)) : option json :=
  match fields with
  | [] => None
  | (k, v) :: rest => if decide (k = name) then Some v else assoc name rest
  end.

(** [Boolean(v)], with [None] for [undefined]. *)
Definition truthy (v : option json) : bool :=
  match v with
  | None => false
  | Some JNull => false
  | Some (JBool b) => b
  | Some (JNum x) => negb (is_zero x || is_nan x)
  | Some (JStr s) => nonEmpty s
  | Some (JArr _) => true
  | Some (JObj _) => true
  end.

(** [a ?? b] *)
Definition nullish (a : option json) (b : json) : json :=
  match a with
  | None => b
  | Some JNull => b
  | Some v => v
  end.

(** [typeof v === "string"] *)
Definition isString (v : option json) : bool :=
  match v with
  | Some (JStr _) => true
  | _ => false
  end.

(** What the engine itself raises as a [TypeError]. *)
Inductive fault : Type :=
| ReadOfNull (prop : jsstring)
| ReadOfUndefined (prop : jsstring)
| NotAFunction (callee : jsstring)
| DestructureOfNull (prop : jsstring).

(** A thrown value: an [Error] instance with its message, or anything else. *)
Inductive exn : Type :=
| ErrorObject (message : jsstring)
| NotAnError.

(** ** Calls to the platform *)

Record FetchRequest : Type := {
  rq_url : jsstring;
  rq_method : jsstring;
  rq_headers : list (jsstring * jsstring);
  rq_body : option jsstring
}.

(** A [Response]: [res.text()] and [res.json()] may reject. *)
Record Response : Type := {
  res_status : N;
  res_statusText : jsstring;
  res_text : exn + jsstring;
  res_json : exn + json
}.

(** [res.ok] *)
Definition res_ok (res : Response) : bool :=
  (200 <=? res_status res) && (res_status res <=? 299).

(** [fetch] rejects or resolves to a response. *)
Definition FetchOutcome : Type := exn + Response.

(** An asynchronous computation: it returns, throws, or awaits a [fetch]. *)
Inductive prog (A : Type) : Type :=
| Return (a : A)
| Throw (e : exn)
| Await (rq : FetchRequest) (k : FetchOutcome -> prog A).

Arguments Return {A} a.
Arguments Throw {A} e.
Arguments Await {A} rq k.

Fixpoint bind {A B : Type} (p : prog A) (f : A -> prog B) : prog B :=
  match p with
  | Return a => f a
  | Throw e => Throw e
  | Await rq k => Await rq (fun o => bind (k o) f)
  end.

#[global] Instance prog_bind : MBind prog := fun A B f p => bind p f.
#[global] Instance prog_ret : MRet prog := @Return.

(** [try { p } catch (err) { h err }] *)
Fixpoint catch {A : Type} (p : prog A) (h : exn -> prog A) : prog A :=
  match p with
  | Return a => Return a
  | Throw e => h e
  | Await rq k => Await rq (fun o => catch (k o) h)
  end.

(** [await] of a promise that is already settled. *)
Definition settle {A : Type} (r : exn + A) : prog A :=
  match r with
  | inl e => Throw e
  | inr a => Return a
  end.

(** [await fetch(url, init)] *)
Definition fetch (rq : FetchRequest) : prog Response := Await rq settle.

(** How a run ends. *)
Inductive outcome (A : Type) : Type :=
| Returned (a : A)
| Raised (e : exn).

Arguments Returned {A} a.
Arguments Raised {A} e.

(** The platform: its answer to a call may depend on the calls before it. *)
Definition platform : Type := list FetchRequest -> FetchRequest -> FetchOutcome.

(** Runs [p] against [w] after [calls]; gives all the calls made, in order. *)
Fixpoint run {A : Type} (w : platform) (calls : list FetchRequest) (p : prog A)
  : list FetchRequest * outcome A :=
  match p with
  | Return a => (calls, Returned a)
  | Throw e => (calls, Raised e)
  | Await rq k => run w (calls ++ [rq]) (k (w calls rq))
  end.

(** [array.map(f)] for an [f] that may throw. *)
Fixpoint arrayMap {A B : Type} (f : A -> prog B) (items : list A) : prog (list B) :=
  match items with
  | [] => Return []
  | x :: rest => y ← f x; ys ← arrayMap f rest; Return (y :: ys)
  end.

(** ** The server's requests and responses *)

(** What reading the request body gives: the stream fails, or the text is
    read and [JSON.parse] of it returns a value or throws ([None]). *)
Inductive RequestBody : Type :=
| BodyFailed (e : exn)
| BodyRead (text : jsstring) (parsed : option json).

(** An incoming request, as the handler sees it: [req_pathname] is what
    [new URL(req.url || "/", base).pathname] gives, or what it throws. *)
Record IncomingMessage : Type := {
  req_method : jsstring;
  req_pathname : exn + jsstring;
  req_authorization : option jsstring;
  req_body : RequestBody
}.

(** What [res.writeHead] and [res.end] are given. *)
Record ServerResponse : Type := {
  statusCode : N;
  headers : list (jsstring * jsstring);
  body : jsstring
}.

(** ** A runtime for the worked examples

    The program is parametric in [JSON.stringify] and in the engine's
    [TypeError] texts.  The examples below the theorems run it with this
    runtime.  [stringify] writes null, booleans, strings, arrays and objects
    as [JSON.stringify] does; a number is written by its exact decimal
    expansion, which reads back as the same number but is longer than the
    shortest numeral [JSON.stringify] picks.  The messages are those of V8. *)
Module Runtime.

Definition hexDigit (d : N) : N := if d <? 10 then 48 + d else 87 + d.

(** [\uXXXX] *)
Definition unicodeEscape (c : N) : jsstring :=
  [92; 117; hexDigit (N.shiftr c 12 mod 16); hexDigit (N.shiftr c 8 mod 16);
   hexDigit (N.shiftr c 4 mod 16); hexDigit (c mod 16)].

Definition isLead (c : N) : bool := (55296 <=? c) && (c <=? 56319).
Definition isTrail (c : N) : bool := (56320 <=? c) && (c <=? 57343).

Definition escapeUnit (c : N) : jsstring :=
  if c =? 8 then [92; 98]
  else if c =? 9 then [92; 116]
  else if c =? 10 then [92; 110]
  else if c =? 12 then [92; 102]
  else if c =? 13 then [92; 114]
  else if c =? 34 then [92; 34]
  else if c =? 92 then [92; 92]
  else if c <? 32 then unicodeEscape c
  else [c].

Fixpoint escape (s : jsstring) : jsstring :=
  match s with
  | [] => []
  | c :: r =>
      if isLead c then
        match r with
        | d :: r' => if isTrail d then c :: d :: escape r'
                     else unicodeEscape c ++ escape r
        | [] => unicodeEscape c
        end
      else if isTrail c then unicodeEscape c ++ escape r
      else escapeUnit c ++ escape r
  end.

(** QuoteJSONString *)
Definition quote (s : jsstring) : jsstring := [34] ++ escape s ++ [34].

Fixpoint dropZeros (s : jsstring) : jsstring :=
  match s with
  | [] => []
  | c :: r => if c =? 48 then dropZeros r else s
  end.

(** The [k] digits of [fp / 10^k], without the zeros at the end. *)
Definition fraction (k fp : N) : jsstring :=
  let ds := ofN fp in
  let padded := replicate (N.to_nat k - length ds) 48 ++ ds in
  rev (dropZeros (rev padded)).

Definition numberText (x : float) : jsstring :=
  match Prim2SF x with
  | S754_zero _ => lit "0"
  | S754_finite s m e =>
      let sign := if s then lit "-" else [] in
      if (0 <=? e)%Z then sign ++ ofN (Npos m * 2 ^ Z.to_N e)
      else
        let k := Z.to_N (- e) in
        let d := Npos m * 5 ^ k in
        sign ++ ofN (d / 10 ^ k)
          ++ (if d mod 10 ^ k =? 0 then [] else lit "." ++ fraction k (d mod 10 ^ k))
  | _ => lit "null"
  end.

Fixpoint stringify (v : json) : jsstring :=
  match v with
  | JNull => lit "null"
  | JBool b => if b then lit "true" else lit "false"
  | JNum x => numberText x
  | JStr s => quote s
  | JArr items => lit "[" ++ join (lit ",") (map stringify items) ++ lit "]"
  | JObj fields =>
      lit "{"
        ++ join (lit ",")
             (map (fun kv => quote (fst kv) ++ lit ":" ++ stringify (snd kv)) fields)
        ++ lit "}"
  end.

Definition typeErrorMessage (f : fault) : jsstring :=
  match f with
  | ReadOfNull prop =>
      lit "Cannot read properties of null (reading '" ++ prop ++ lit "')"
  | ReadOfUndefined prop =>
      lit "Cannot read properties of undefined (reading '" ++ prop ++ lit "')"
  | NotAFunction callee => callee ++ lit " is not a function"
  | DestructureOfNull prop =>
      lit "Cannot destructure property '" ++ prop
        ++ lit "' of '(intermediate value)' as it is null."
  end.

End Runtime.

(** ** shopify-graphql-core.ts *)

Definition DEFAULT_SCOPES : jsstring :=
  lit "read_orders,read_products,read_customers,read_inventory".

Record ShopifyConfig : Type := {
  shopDomain : jsstring;
  accessToken : jsstring;
  apiVersion : option jsstring;
  scopes : option jsstring
}.

Record GraphqlParams : Type := {
  gp_shop : jsstring;
  gp_accessToken : jsstring;
  gp_query : jsstring;
  gp_variables : option json;
  gp_apiVersion : option jsstring
}.

(** The code unit of the comma. *)
Definition comma : N := 44.

Definition getRequiredScopes (scopesEnv : option jsstring) : list jsstring :=
  let scopes := default DEFAULT_SCOPES scopesEnv in
  List.filter nonEmpty (map trim (split comma scopes)).

(** The object literal [{ query, variables }]: a property whose value is
    [undefined] is left out by [JSON.stringify]. *)
Definition queryPayload (query : jsstring) (variables : option json) : json :=
  JObj ((lit "query", JStr query)
          :: match variables with
             | Some v => [(lit "variables", v)]
             | None => []
             end).

(** ** Data for the worked examples *)
Module Demo.

(** The configuration of the spec's end-to-end scenarios. *)
Definition config : ShopifyConfig :=
  {| shopDomain := lit "demo.myshop.test";
     accessToken := lit "shpat_example";
     apiVersion := None;
     scopes := Some (lit "read_orders,read_products") |}.

(** [{ access_scopes: [{ handle }, ...] }] *)
Definition scopesData (hs : list jsstring) : json :=
  JObj [(lit "access_scopes", JArr (map (fun h => JObj [(lit "handle", JStr h)]) hs))].

(** A 200 response whose body parses to [data]. *)
Definition okResponse (data : json) : Response :=
  {| res_status := 200;
     res_statusText := lit "OK";
     res_text := inr [];
     res_json := inr data |}.

(** A platform that grants [hs] and answers every query with [answer]. *)
Definition granting (hs : list jsstring) (answer : json) : platform :=
  fun _ rq =>
    if bool_decide (rq_method rq = lit "GET")
    then inr (okResponse (scopesData hs))
    else inr (okResponse answer).

Definition shopName : json :=
  JObj [(lit "shop", JObj [(lit "name", JStr (lit "Test Shop"))])].

Definition shopQuery : jsstring := lit "query { shop { name } }".

(** A request to the server with the body [{ "query": shopQuery }]. *)
Definition request (method pathname : jsstring) (authorization : option jsstring)
  : IncomingMessage :=
  {| req_method := method;
     req_pathname := inr pathname;
     req_authorization := authorization;
     req_body := BodyRead [] (Some (JObj [(lit "query", JStr shopQuery)])) |}.

(** The parameters the orchestration gives the forwarder for [shopQuery]. *)
Definition params : GraphqlParams :=
  {| gp_shop := lit "demo.myshop.test";
     gp_accessToken := lit "shpat_example";
     gp_query := shopQuery;
     gp_variables := None;
     gp_apiVersion := Some (lit "2024-10") |}.

(** [{ data: { shop }, errors: [{ message: "Throttled" }] }] *)
Definition withErrors : json :=
  JObj [(lit "data", shopName);
        (lit "errors", JArr [JObj [(lit "message", JStr (lit "Throttled"))]])].

(** [{ data: { shop }, errors: [] }] *)
Definition emptyErrors : json :=
  JObj [(lit "data", shopName); (lit "errors", JArr [])].

(** [{ data: null }] *)
Definition nullData : json := JObj [(lit "data", JNull)].

(** A POST to [/graphql] whose body is not JSON. *)
Definition notJson : IncomingMessage :=
  {| req_method := lit "POST";
     req_pathname := inr (lit "/graphql");
     req_authorization := None;
     req_body := BodyRead (lit "not json") None |}.

End Demo.

(** ** The process: environment, arguments, output *)

(** The variables of [process.env]: a variable is a string; [None] is a
    name that is not a variable. *)
Definition Env : Type := jsstring -> option jsstring.

(** What a run of a script leaves: the lines written with [console.log]
    and with [console.error], and the exit status. *)
Record ProcessResult : Type := {
  stdout : list jsstring;
  stderr : list jsstring;
  exitCode : N
}.

(** [JSON.stringify(v, null, 2)] for the worked examples, numbers as in
    [Runtime.stringify]. *)
Module RuntimePretty.

Definition newline : jsstring := [10].

Fixpoint pretty (indent : jsstring) (v : json) : jsstring :=
  match v with
  | JArr [] => lit "[]"
  | JArr items =>
      let inner := indent ++ lit "  " in
      lit "[" ++ newline ++ inner
        ++ join (lit "," ++ newline ++ inner) (map (pretty inner) items)
        ++ newline ++ indent ++ lit "]"
  | JObj [] => lit "{}"
  | JObj fields =>
      let inner := indent ++ lit "  " in
      lit "{" ++ newline ++ inner
        ++ join (lit "," ++ newline ++ inner)
             (map (fun kv => Runtime.quote (fst kv) ++ lit ": " ++ pretty inner (snd kv))
                fields)
        ++ newline ++ indent ++ lit "}"
  | _ => Runtime.stringify v
  end.

Definition stringifyPretty (v : json) : jsstring := pretty [] v.

End RuntimePretty.

(** Environments for the worked examples. *)
Module DemoEnv.

(** Domain, token and query set (with white space around the domain). *)
Definition full : Env :=
  fun name =>
    if bool_decide (name = lit "SHOP_DOMAIN") then Some (lit " demo.myshop.test ")
    else if bool_decide (name = lit "SHOP_ACCESS_TOKEN") then Some (lit "shpat_example")
    else if bool_decide (name = lit "SHOPIFY_GRAPHQL") then Some Demo.shopQuery
    else if bool_decide (name = lit "SHOPIFY_SCOPES") then Some (lit "read_orders,read_products")
    else None.

(** The token is blank. *)
Definition blankToken : Env :=
  fun name =>
    if bool_decide (name = lit "SHOP_DOMAIN") then Some (lit "demo.myshop.test")
    else if bool_decide (name = lit "SHOP_ACCESS_TOKEN") then Some (lit "   ")
    else None.

(** A platform that answers every call with the status 503. *)
Definition unavailable : platform :=
  fun _ _ =>
    inr {| res_status := 503;
           res_statusText := lit "Service Unavailable";
           res_text := inr (lit "try later");
           res_json := inl (ErrorObject (lit "Unexpected token")) |}.

(** A platform whose calls all reject. *)
Definition offline : platform :=
  fun _ _ => inl (ErrorObject (lit "fetch failed")).

(** A POST to [/graphql] with the body [{ query, variables, operationName }]. *)
Definition namedOperation (operationName : json) : IncomingMessage :=
  {| req_method := lit "POST";
     req_pathname := inr (lit "/graphql");
     req_authorization := None;
     req_body := BodyRead []
                   (Some (JObj [(lit "query", JStr Demo.shopQuery);
                                (lit "variables", JObj []);
                                (lit "operationName", operationName)])) |}.

End DemoEnv.

Section Program.

(** [JSON.stringify] on parsed JSON values and on the object literals of
    the program. *)
Variable JSON_stringify : json -> jsstring.

(** The message of the [TypeError] the engine raises. *)
Variable TypeError_message : fault -> jsstring.

Definition TypeError {A : Type} (f : fault) : prog A :=
  Throw (ErrorObject (TypeError_message f)).

(** [v.name], for the property names of this program ([errors], [data],
    [access_scopes], [handle]), which no built-in prototype defines. *)
Definition getProp (v : json) (name : jsstring) : prog (option json) :=
  match v with
  | JNull => TypeError (ReadOfNull name)
  | JObj fields => Return (assoc name fields)
  | _ => Return None
  end.

(** [`${JSON.stringify(v)}`]: of [undefined] it is [undefined]. *)
Definition stringifyValue (v : option json) : jsstring :=
  match v with
  | Some e => JSON_stringify e
  | None => lit "undefined"
  end.

(** The request [runShopifyQuery] sends. *)
Definition graphqlRequest (p : GraphqlParams) : FetchRequest :=
  let apiVersion := default (lit "2024-10") (gp_apiVersion p) in
  {| rq_url := lit "https://" ++ gp_shop p ++ lit "/admin/api/" ++ apiVersion
                 ++ lit "/graphql.json";
     rq_method := lit "POST";
     rq_headers := [(lit "Content-Type", lit "application/json");
                    (lit "X-Shopify-Access-Token", gp_accessToken p)];
     rq_body := Some (JSON_stringify (queryPayload (gp_query p) (gp_variables p))) |}.

Definition runShopifyQuery (p : GraphqlParams) : prog json :=
  res ← fetch (graphqlRequest p);
  if negb (res_ok res) then
    text ← settle (res_text res);
    Throw (ErrorObject (lit "Shopify API error (" ++ ofN (res_status res) ++ lit " "
                          ++ res_statusText res ++ lit "): " ++ text))
  else
    data ← settle (res_json res);
    errors ← getProp data (lit "errors");
    if truthy errors then
      Throw (ErrorObject (lit "Shopify GraphQL errors: " ++ stringifyValue errors))
    else
      d ← getProp data (lit "data");
      Return (nullish d data).

(** The request [getMissingScopes] sends ([fetch] defaults to GET). *)
Definition scopesRequest (shop accessToken : jsstring) : FetchRequest :=
  {| rq_url := lit "https://" ++ shop ++ lit "/admin/oauth/access_scopes.json";
     rq_method := lit "GET";
     rq_headers := [(lit "X-Shopify-Access-Token", accessToken)];
     rq_body := None |}.

(** [scope.handle.trim()] *)
Definition handleOf (scope : json) : prog jsstring :=
  handle ← getProp scope (lit "handle");
  match handle with
  | None => TypeError (ReadOfUndefined (lit "trim"))
  | Some JNull => TypeError (ReadOfNull (lit "trim"))
  | Some (JStr s) => Return (trim s)
  | Some _ => TypeError (NotAFunction (lit "scope.handle.trim"))
  end.

Definition getMissingScopes (shop accessToken : jsstring)
    (requiredScopes : list jsstring) : prog (list jsstring) :=
  res ← fetch (scopesRequest shop accessToken);
  if negb (res_ok res) then
    text ← settle (res_text res);
    Throw (ErrorObject (lit "获取 Shopify 授权 scope 失败 (" ++ ofN (res_status res)
                          ++ lit " " ++ res_statusText res ++ lit "): " ++ text))
  else
    data ← settle (res_json res);
    access_scopes ← getProp data (lit "access_scopes");
    match access_scopes with
    | None => TypeError (ReadOfUndefined (lit "map"))
    | Some JNull => TypeError (ReadOfNull (lit "map"))
    | Some (JArr items) =>
        handles ← arrayMap handleOf items;
        let granted : gset jsstring := list_to_set (List.filter nonEmpty handles) in
        Return (List.filter (fun scope => negb (bool_decide (scope ∈ granted)))
                  requiredScopes)
    | Some _ => TypeError (NotAFunction (lit "data.access_scopes.map"))
    end.

(** The message of the error thrown when scopes are missing. *)
Definition missingScopesMessage (missingScopes : list jsstring) : jsstring :=
  lit "Shopify 应用缺少以下授权：" ++ join (lit ", ") missingScopes
    ++ lit "。请重新安装应用以授予这些 scope。".

Definition validateAndQuery (config : ShopifyConfig) (query : jsstring)
    (variables : option json) : prog json :=
  let requiredScopes := getRequiredScopes (scopes config) in
  missingScopes ← getMissingScopes (shopDomain config) (accessToken config)
                    requiredScopes;
  if (0 <? length missingScopes)%nat then
    Throw (ErrorObject (missingScopesMessage missingScopes))
  else
    runShopifyQuery
      {| gp_shop := shopDomain config;
         gp_accessToken := accessToken config;
         gp_query := query;
         gp_variables := variables;
         gp_apiVersion :=
           Some (match apiVersion config with
                 | Some v => if nonEmpty v then v else lit "2024-10"
                 | None => lit "2024-10"
                 end) |}.


(** ** graphql-server.ts *)

(** [process.env.API_KEY] *)
Variable env_API_KEY : option jsstring.

Definition API_KEY : option jsstring := trim <$> env_API_KEY.

Definition sendJson (statusCode : N) (data : json) : ServerResponse :=
  {| statusCode := statusCode;
     headers := [(lit "Content-Type", lit "application/json");
                 (lit "Access-Control-Allow-Origin", lit "*");
                 (lit "Access-Control-Allow-Methods", lit "POST, GET, OPTIONS");
                 (lit "Access-Control-Allow-Headers", lit "Content-Type, Authorization")];
     body := JSON_stringify data |}.

(** The object literal [{ errors: [{ message }] }]. *)
Definition errorsPayload (message : jsstring) : json :=
  JObj [(lit "errors", JArr [JObj [(lit "message", JStr message)]])].

Definition sendError (statusCode : N) (message : jsstring) : ServerResponse :=
  sendJson statusCode (errorsPayload message).

Definition validateApiKey (req : IncomingMessage) : bool :=
  if negb (truthy (JStr <$> API_KEY)) then true
  else
    let authHeader := req_authorization req in
    if negb (truthy (JStr <$> authHeader)) then false
    else
      let authHeader := default [] authHeader in
      let token := if startsWith (lit "Bearer ") authHeader
                   then slice 7 authHeader
                   else authHeader in
      bool_decide (Some token = API_KEY).

Definition parseRequestBody (req : IncomingMessage) : prog json :=
  match req_body req with
  | BodyFailed e => Throw e
  | BodyRead _ None => Throw (ErrorObject (lit "Invalid JSON body"))
  | BodyRead _ (Some parsed) => Return parsed
  end.

(** [const { query, variables } = parsed] *)
Definition destructure (parsed : json) : prog (option json * option json) :=
  match parsed with
  | JNull => TypeError (DestructureOfNull (lit "query"))
  | JObj fields => Return (assoc (lit "query") fields, assoc (lit "variables") fields)
  | _ => Return (None, None)
  end.

(** The string a value is, once [typeof] has said it is one. *)
Definition stringOf (v : option json) : jsstring :=
  match v with
  | Some (JStr s) => s
  | _ => []
  end.

Definition handleGraphQLRequest (req : IncomingMessage) (config : ShopifyConfig)
  : prog ServerResponse :=
  if negb (validateApiKey req) then
    Return (sendError 401 (lit "Unauthorized: Invalid or missing API key"))
  else
    catch
      (parsed ← parseRequestBody req;
       qv ← destructure parsed;
       let query := fst qv in
       let variables := snd qv in
       if negb (truthy query) || negb (isString query) then
         Return (sendError 400 (lit "Missing or invalid 'query' field"))
       else
         data ← validateAndQuery config (stringOf query) variables;
         Return (sendJson 200 (JObj [(lit "data", data)])))
      (fun err =>
         let message := match err with
                        | ErrorObject m => m
                        | NotAnError => lit "Unknown error"
                        end in
         Return (sendError 500 message)).

Definition handleHealthCheck : ServerResponse :=
  sendJson 200 (JObj [(lit "status", JStr (lit "ok"));
                      (lit "service", JStr (lit "shopify-graphql-proxy"))]).

Definition handleIntrospection : ServerResponse :=
  let schemaInfo :=
    JObj [(lit "data",
           JObj [(lit "__schema",
                  JObj [(lit "description", JStr (lit "Shopify Admin GraphQL API Proxy"));
                        (lit "queryType", JObj [(lit "name", JStr (lit "QueryRoot"))]);
                        (lit "mutationType", JObj [(lit "name", JStr (lit "Mutation"))]);
                        (lit "types", JArr [])])])] in
  sendJson 200 schemaInfo.

(** The response to a CORS preflight, written without [sendJson]. *)
Definition preflight : ServerResponse :=
  {| statusCode := 204;
     headers := [(lit "Access-Control-Allow-Origin", lit "*");
                 (lit "Access-Control-Allow-Methods", lit "POST, GET, OPTIONS");
                 (lit "Access-Control-Allow-Headers", lit "Content-Type, Authorization");
                 (lit "Access-Control-Max-Age", lit "86400")];
     body := [] |}.

(** The listener [main] gives to [http.createServer]; a [Throw] is a
    rejected handler, which writes no response. *)
Definition requestListener (config : ShopifyConfig) (req : IncomingMessage)
  : prog ServerResponse :=
  pathname ← settle (req_pathname req);
  if bool_decide (req_method req = lit "OPTIONS") then Return preflight
  else if bool_decide (pathname = lit "/health") || bool_decide (pathname = lit "/") then
    Return handleHealthCheck
  else if bool_decide (pathname = lit "/graphql") then
    if bool_decide (req_method req = lit "POST") then handleGraphQLRequest req config
    else if bool_decide (req_method req = lit "GET") then Return handleIntrospection
    else Return (sendError 405 (lit "Method not allowed. Use POST for GraphQL queries."))
  else Return (sendError 404 (lit "Not found. Use /graphql endpoint for GraphQL queries.")).

(** ** shopify-graphql-core.ts: requireEnv *)

(** The names [process.env] inherits from [Object.prototype]: for a name
    that is not a variable, [process.env[name]] is the inherited function or
    object, not [undefined]. *)
Definition objectPrototypeNames : list jsstring :=
  [lit "constructor"; lit "__defineGetter__"; lit "__defineSetter__";
   lit "hasOwnProperty"; lit "__lookupGetter__"; lit "__lookupSetter__";
   lit "isPrototypeOf"; lit "propertyIsEnumerable"; lit "toString";
   lit "valueOf"; lit "__proto__"; lit "toLocaleString"].

Definition inherited (name : jsstring) : bool :=
  bool_decide (name ∈ objectPrototypeNames).

(** [process.env[name]?.trim()]: a variable is trimmed, a name that is
    nothing gives [undefined], and an inherited value has no [trim]. *)
Definition envTrimmed (env : Env) (name : jsstring) : prog (option jsstring) :=
  match env name with
  | Some raw => Return (Some (trim raw))
  | None =>
      if inherited name then TypeError (NotAFunction (lit "process.env[name]?.trim"))
      else Return None
  end.

Definition requireEnv (env : Env) (name : jsstring) : prog jsstring :=
  value ← envTrimmed env name;
  if negb (truthy (JStr <$> value)) then
    Throw (ErrorObject (lit "缺少环境变量 " ++ name))
  else Return (default [] value).

(** ** graphql-server.ts: the start of main *)

(** What [main] does before it creates the server: a [Throw] is a rejected
    [main], and no server is created. *)
Definition serverConfig (env : Env) : prog ShopifyConfig :=
  shopDomain ← requireEnv env (lit "SHOP_DOMAIN");
  accessToken ← requireEnv env (lit "SHOP_ACCESS_TOKEN");
  Return {| shopDomain := shopDomain;
            accessToken := accessToken;
            apiVersion := env (lit "SHOPIFY_API_VERSION");
            scopes := env (lit "SHOPIFY_SCOPES") |}.

(** ** minimal-shopify-query.ts *)

(** The line the [catch] of a script writes. *)
Definition errorLine (err : exn) : jsstring :=
  lit "[error] " ++ match err with
                    | ErrorObject m => m
                    | NotAnError => lit "未知错误"
                    end.

(** The two lines written before the orchestration is called. *)
Definition infoLines : list jsstring :=
  [lit "[info] 正在校验 Shopify 授权 scope..."; lit "[info] 授权通过，正在调用 Shopify..."].

(** [main], given [JSON.stringify(v, null, 2)] and [process.argv[2]]: the
    inner [catch] is the handler once the two info lines are written, the
    outer one the handler before. *)
Definition cli_main (JSON_stringify_pretty : json -> jsstring) (env : Env)
    (argv2 : option jsstring) : prog ProcessResult :=
  catch
    (shopDomain ← requireEnv env (lit "SHOP_DOMAIN");
     accessToken ← requireEnv env (lit "SHOP_ACCESS_TOKEN");
     let cliQuery := trim <$> argv2 in
     query ← (if truthy (JStr <$> cliQuery) then Return (default [] cliQuery)
              else requireEnv env (lit "SHOPIFY_GRAPHQL"));
     let config := {| shopDomain := shopDomain;
                      accessToken := accessToken;
                      apiVersion := env (lit "SHOPIFY_API_VERSION");
                      scopes := env (lit "SHOPIFY_SCOPES") |} in
     catch
       (data ← validateAndQuery config query None;
        Return {| stdout := [JSON_stringify_pretty data];
                  stderr := infoLines;
                  exitCode := 0 |})
       (fun err => Return {| stdout := [];
                             stderr := infoLines ++ [errorLine err];
                             exitCode := 1 |}))
    (fun err => Return {| stdout := []; stderr := [errorLine err]; exitCode := 1 |}).

(** ** The standalone script (the earlier minimal-shopify-query.ts) *)

(** Its [getRequiredScopes], which reads the environment itself. *)
Definition standalone_getRequiredScopes (env : Env) : list jsstring :=
  let scopes := default DEFAULT_SCOPES (env (lit "SHOPIFY_SCOPES")) in
  List.filter nonEmpty (map trim (split comma scopes)).

(** Its [runShopifyQuery], which reads the API version itself. *)
Definition standalone_runShopifyQuery (env : Env) (shop accessToken query : jsstring)
    (variables : option json) : prog json :=
  let apiVersion :=
    match env (lit "SHOPIFY_API_VERSION") with
    | Some v => if nonEmpty v then v else lit "2024-10"
    | None => lit "2024-10"
    end in
  let endpoint := lit "https://" ++ shop ++ lit "/admin/api/" ++ apiVersion
                    ++ lit "/graphql.json" in
  res ← fetch {| rq_url := endpoint;
                 rq_method := lit "POST";
                 rq_headers := [(lit "Content-Type", lit "application/json");
                                (lit "X-Shopify-Access-Token", accessToken)];
                 rq_body := Some (JSON_stringify (queryPayload query variables)) |};
  if negb (res_ok res) then
    text ← settle (res_text res);
    Throw (ErrorObject (lit "Shopify API error (" ++ ofN (res_status res) ++ lit " "
                          ++ res_statusText res ++ lit "): " ++ text))
  else
    data ← settle (res_json res);
    errors ← getProp data (lit "errors");
    if truthy errors then
      Throw (ErrorObject (lit "Shopify GraphQL errors: " ++ stringifyValue errors))
    else
      d ← getProp data (lit "data");
      Return (nullish d data).

(** Its [getMissingScopes]. *)
Definition standalone_getMissingScopes (shop accessToken : jsstring)
    (requiredScopes : list jsstring) : prog (list jsstring) :=
  res ← fetch {| rq_url := lit "https://" ++ shop ++ lit "/admin/oauth/access_scopes.json";
                 rq_method := lit "GET";
                 rq_headers := [(lit "X-Shopify-Access-Token", accessToken)];
                 rq_body := None |};
  if negb (res_ok res) then
    text ← settle (res_text res);
    Throw (ErrorObject (lit "获取 Shopify 授权 scope 失败 (" ++ ofN (res_status res)
                          ++ lit " " ++ res_statusText res ++ lit "): " ++ text))
  else
    data ← settle (res_json res);
    access_scopes ← getProp data (lit "access_scopes");
    match access_scopes with
    | None => TypeError (ReadOfUndefined (lit "map"))
    | Some JNull => TypeError (ReadOfNull (lit "map"))
    | Some (JArr items) =>
        handles ← arrayMap handleOf items;
        let granted : gset jsstring := list_to_set (List.filter nonEmpty handles) in
        Return (List.filter (fun scope => negb (bool_decide (scope ∈ granted)))
                  requiredScopes)
    | Some _ => TypeError (NotAFunction (lit "data.access_scopes.map"))
    end.

(** Its [main], given [JSON.stringify(v, null, 2)]: [process.exit(1)] ends
    the run where it is called. *)
Definition standalone_main (JSON_stringify_pretty : json -> jsstring) (env : Env)
  : prog ProcessResult :=
  catch
    (shopDomain ← requireEnv env (lit "SHOP_DOMAIN");
     accessToken ← requireEnv env (lit "SHOP_ACCESS_TOKEN");
     query ← requireEnv env (lit "SHOPIFY_GRAPHQL");
     let info1 := lit "[info] 正在校验 Shopify 授权 scope..." in
     let info2 := lit "[info] 授权通过，正在调用 Shopify..." in
     catch
       (let requiredScopes := standalone_getRequiredScopes env in
        missingScopes ← standalone_getMissingScopes shopDomain accessToken requiredScopes;
        if (0 <? length missingScopes)%nat then
          Return {| stdout := [];
                    stderr := [info1;
                               lit "[error] Shopify 应用缺少以下授权："
                                 ++ join (lit ", ") missingScopes
                                 ++ lit "。请重新安装应用以授予这些 scope。"];
                    exitCode := 1 |}
        else
          catch
            (data ← standalone_runShopifyQuery env shopDomain accessToken query None;
             Return {| stdout := [JSON_stringify_pretty data];
                       stderr := [info1; info2];
                       exitCode := 0 |})
            (fun err => Return {| stdout := [];
                                  stderr := [info1; info2; errorLine err];
                                  exitCode := 1 |}))
       (fun err => Return {| stdout := [];
                             stderr := [info1; errorLine err];
                             exitCode := 1 |}))
    (fun err => Return {| stdout := []; stderr := [errorLine err]; exitCode := 1 |}).

(** ** What the further properties speak of *)

(** The value of the environment variable [name], trimmed, when it is set
    and not blank. *)
Definition envValue (env : Env) (name : jsstring) : option jsstring :=
  match env name with
  | Some raw => if nonEmpty (trim raw) then Some (trim raw) else None
  | None => None
  end.

(** The API version a configuration asks for. *)
Definition effectiveVersion (version : option jsstring) : jsstring :=
  match version with
  | Some v => if nonEmpty v then v else lit "2024-10"
  | None => lit "2024-10"
  end.

(** The query a run of the script executes: the argument when, trimmed, it
    is not empty; else the trimmed, non-blank [SHOPIFY_GRAPHQL]. *)
Definition chosenQuery (env : Env) (argv2 : option jsstring) : option jsstring :=
  match argv2 with
  | Some a => if nonEmpty (trim a) then Some (trim a)
              else envValue env (lit "SHOPIFY_GRAPHQL")
  | None => envValue env (lit "SHOPIFY_GRAPHQL")
  end.

(** The error [requireEnv] throws for [name]. *)
Definition missingVariable (name : jsstring) : exn :=
  ErrorObject (lit "缺少环境变量 " ++ name).

(** The message a handler shows for a thrown value. *)
Definition shownMessage (err : exn) : jsstring :=
  match err with
  | ErrorObject m => m
  | NotAnError => lit "Unknown error"
  end.

(** ** What the claims speak of *)

(** [v.name] where it cannot throw. *)
Definition ownProp (v : json) (name : jsstring) : option json :=
  match v with
  | JObj fields => assoc name fields
  | _ => None
  end.

(** [item] is an object whose [handle] is the string [h]. *)
Definition scopeEntry (item : json) (h : jsstring) : Prop :=
  exists fields, item = JObj fields /\ assoc (lit "handle") fields = Some (JStr h).

(** [data] is [{ access_scopes: [{ handle }, ...] }] with the handles [hs]. *)
Definition scopeList (data : json) (hs : list jsstring) : Prop :=
  exists items,
    ownProp data (lit "access_scopes") = Some (JArr items)
    /\ Forall2 scopeEntry items hs.

(** The granted set as the spec describes it: each handle trimmed, the
    empty ones discarded. *)
Definition grantedScopes (hs : list jsstring) : list jsstring :=
  List.filter nonEmpty (map trim hs).

(** The three CORS headers of [sendJson]. *)
Definition corsHeaders (resp : ServerResponse) : Prop :=
  (lit "Access-Control-Allow-Origin", lit "*") ∈ headers resp
  /\ (lit "Access-Control-Allow-Methods", lit "POST, GET, OPTIONS") ∈ headers resp
  /\ (lit "Access-Control-Allow-Headers", lit "Content-Type, Authorization")
       ∈ headers resp.

(** A computation that awaits nothing. *)
Definition silent {A : Type} (p : prog A) : Prop :=
  forall w calls, fst (run w calls p) = calls.

(** Two literals differ. *)
Ltac lit_neq := let H := fresh in intros H; vm_compute in H; discriminate.

(** ** Strings: trimming and splitting *)

Lemma trimStart_idem (s : jsstring) : trimStart (trimStart s) = trimStart s.
Proof.
  induction s as [|c r IH]; [reflexivity|].
  cbn [trimStart]. destruct (isWhiteSpace c) eqn:E; [exact IH|].
  cbn [trimStart]. now rewrite E.
Qed.

Lemma trimStart_snoc (l : jsstring) (c : N) :
  isWhiteSpace c = false -> exists l', trimStart (l ++ [c]) = l' ++ [c].
Proof.
  intros Hc. induction l as [|a l IH]; cbn [app trimStart].
  - rewrite Hc. now exists [].
  - destruct (isWhiteSpace a); [exact IH|]. now exists (a :: l).
Qed.

Lemma trimEnd_head (c : N) (r : jsstring) :
  isWhiteSpace c = false -> exists r', trimEnd (c :: r) = c :: r'.
Proof.
  intros Hc. unfold trimEnd. cbn [rev].
  destruct (trimStart_snoc (rev r) c Hc) as [l' ->].
  exists (rev l'). now rewrite rev_app_distr.
Qed.

Lemma trimStart_trimEnd (s : jsstring) :
  trimStart s = s -> trimStart (trimEnd s) = trimEnd s.
Proof.
  destruct s as [|c r]; [reflexivity|].
  cbn [trimStart]. destruct (isWhiteSpace c) eqn:E.
  - intros H. exfalso.
    assert (Hs : trimStart (trimStart r) = trimStart r) by apply trimStart_idem.
    rewrite H in Hs. cbn [trimStart] in Hs. rewrite E in Hs.
    apply (f_equal length) in Hs. rewrite H in Hs. cbn [length] in Hs.
    assert (Hlen : forall t : jsstring, (length (trimStart t) <= length t)%nat).
    { induction t as [|a t IHt]; cbn [trimStart length]; [lia|].
      destruct (isWhiteSpace a); cbn [length]; lia. }
    specialize (Hlen r). rewrite H in Hlen. cbn [length] in Hlen. lia.
  - intros _. destruct (trimEnd_head c r E) as [r' ->].
    cbn [trimStart]. now rewrite E.
Qed.

Lemma trimEnd_idem (s : jsstring) : trimEnd (trimEnd s) = trimEnd s.
Proof. unfold trimEnd. now rewrite rev_involutive, trimStart_idem. Qed.

Lemma trim_idem (s : jsstring) : trim (trim s) = trim s.
Proof.
  unfold trim.
  rewrite (trimStart_trimEnd (trimStart s) (trimStart_idem s)).
  apply trimEnd_idem.
Qed.

Lemma trimStart_elem (s : jsstring) (c : N) : c ∈ trimStart s -> c ∈ s.
Proof.
  induction s as [|a r IH]; cbn [trimStart]; [tauto|].
  destruct (isWhiteSpace a); [|tauto].
  intros H. apply elem_of_cons. right. now apply IH.
Qed.

Lemma trim_elem (s : jsstring) (c : N) : c ∈ trim s -> c ∈ s.
Proof.
  unfold trim, trimEnd. intros H.
  apply trimStart_elem. apply list_elem_of_In, in_rev, list_elem_of_In.
  apply trimStart_elem. now apply list_elem_of_In, in_rev, list_elem_of_In.
Qed.

Lemma split_nonempty (sep : N) (s : jsstring) : split sep s <> [].
Proof.
  induction s as [|c r IH]; cbn [split]; [discriminate|].
  destruct (c =? sep); [discriminate|].
  destruct (split sep r); discriminate.
Qed.

Lemma join_cons (sep p q : jsstring) (rest : list jsstring) :
  join sep (p :: q :: rest) = p ++ sep ++ join sep (q :: rest).
Proof. reflexivity. Qed.

Lemma join_split (sep : N) (s : jsstring) : join [sep] (split sep s) = s.
Proof.
  induction s as [|c r IH]; [reflexivity|].
  cbn [split]. pose proof (split_nonempty sep r) as Hn.
  destruct (split sep r) as [|f fs] eqn:E; [contradiction|].
  destruct (N.eqb_spec c sep) as [->|Hne].
  - rewrite join_cons, IH. reflexivity.
  - destruct fs as [|g gs].
    + cbn [join] in *. now rewrite IH.
    + rewrite join_cons in *. rewrite <- IH. reflexivity.
Qed.

Lemma split_fields_free (sep : N) (s : jsstring) :
  Forall (fun field => sep ∉ field) (split sep s).
Proof.
  induction s as [|c r IH]; cbn [split].
  - constructor; [|constructor]. apply not_elem_of_nil.
  - destruct (N.eqb_spec c sep) as [->|Hne].
    + constructor; [apply not_elem_of_nil | exact IH].
    + destruct (split sep r) as [|f fs].
      * constructor; [|constructor]. intros H. apply elem_of_cons in H.
        destruct H as [H|H]; [congruence | now apply not_elem_of_nil in H].
      * inversion IH as [|? ? Hf Hfs]; subst. constructor; [|exact Hfs].
        intros H. apply elem_of_cons in H. destruct H as [H|H]; [congruence|tauto].
Qed.

(** ** Running computations *)

Lemma run_bind {A B : Type} (w : platform) (p : prog A) (f : A -> prog B) :
  forall calls,
    run w calls (p ≫= f)
    = match run w calls p with
      | (calls', Returned a) => run w calls' (f a)
      | (calls', Raised e) => (calls', Raised e)
      end.
Proof.
  unfold mbind, prog_bind.
  induction p as [a|e|rq k IH]; intros calls; cbn [bind run]; try reflexivity.
  apply IH.
Qed.

Lemma run_catch {A : Type} (w : platform) (p : prog A) (h : exn -> prog A) :
  forall calls,
    run w calls (catch p h)
    = match run w calls p with
      | (calls', Returned a) => (calls', Returned a)
      | (calls', Raised e) => run w calls' (h e)
      end.
Proof.
  induction p as [a|e|rq k IH]; intros calls; cbn [catch run]; try reflexivity.
  apply IH.
Qed.

Lemma run_settle {A : Type} (w : platform) (calls : list FetchRequest) (r : exn + A) :
  run w calls (settle r)
  = (calls, match r with inl e => Raised e | inr a => Returned a end).
Proof. destruct r; reflexivity. Qed.

Lemma run_fetch (w : platform) (calls : list FetchRequest) (rq : FetchRequest) :
  run w calls (fetch rq)
  = (calls ++ [rq],
     match w calls rq with inl e => Raised e | inr res => Returned res end).
Proof. unfold fetch. cbn [run]. apply run_settle. Qed.

Lemma silent_bind {A B : Type} (p : prog A) (f : A -> prog B) :
  silent p -> (forall a, silent (f a)) -> silent (p ≫= f).
Proof.
  intros Hp Hf w calls. rewrite run_bind. specialize (Hp w calls).
  destruct (run w calls p) as [calls' [a|e]]; cbn [fst] in *; subst.
  - apply Hf.
  - reflexivity.
Qed.

(** ** The scope validator *)

Lemma arrayMap_handleOf (w : platform) (calls : list FetchRequest)
    (items : list json) (hs : list jsstring) :
  Forall2 scopeEntry items hs ->
  run w calls (arrayMap handleOf items) = (calls, Returned (map trim hs)).
Proof.
  induction 1 as [|item h items hs [fields [-> Hh]] _ IH]; [reflexivity|].
  cbn [arrayMap]. rewrite run_bind. unfold handleOf at 1.
  rewrite run_bind. cbn [getProp run]. rewrite Hh. cbn [run].
  rewrite run_bind, IH. reflexivity.
Qed.

Lemma filter_sublist {A : Type} (f : A -> bool) (l : list A) :
  List.filter f l `sublist_of` l.
Proof.
  induction l as [|a l IH]; cbn [List.filter]; [constructor|].
  destruct (f a); now constructor.
Qed.

Lemma elem_of_filter_bool {A : Type} (f : A -> bool) (l : list A) (x : A) :
  x ∈ List.filter f l <-> x ∈ l /\ f x = true.
Proof. rewrite !list_elem_of_In. apply filter_In. Qed.

Lemma filter_bool_nil {A : Type} (f : A -> bool) (l : list A) :
  List.filter f l = [] <-> forall x, x ∈ l -> f x = false.
Proof.
  induction l as [|a l IH]; cbn [List.filter].
  - split; [|reflexivity]. intros _ x Hx. now apply not_elem_of_nil in Hx.
  - destruct (f a) eqn:E; split.
    + discriminate.
    + intros H. specialize (H a (list_elem_of_here a l)). congruence.
    + intros H x Hx. apply elem_of_cons in Hx. destruct Hx as [->|Hx]; [exact E|].
      now apply IH.
    + intros H. apply IH. intros x Hx. apply H. now apply list_elem_of_further.
Qed.

(** C1.  When the platform answers the scope request with a success status
    and the scope list [hs], [getMissingScopes] makes that one call and
    returns exactly the entries of the required list that are not in the
    granted set (the handles trimmed, the empty ones discarded), in the
    order of the required list; the result is empty exactly when every
    required scope is granted. *)
Theorem getMissingScopes_is_ordered_difference
    (w : platform) (calls : list FetchRequest) (shop token : jsstring)
    (requiredScopes : list jsstring) (res : Response) (data : json)
    (hs : list jsstring) :
  w calls (scopesRequest shop token) = inr res ->
  res_ok res = true ->
  res_json res = inr data ->
  scopeList data hs ->
  exists missing,
    run w calls (getMissingScopes shop token requiredScopes)
    = (calls ++ [scopesRequest shop token], Returned missing)
    /\ missing
       = List.filter (fun scope => negb (bool_decide (scope ∈ grantedScopes hs)))
           requiredScopes
    /\ missing `sublist_of` requiredScopes
    /\ (forall scope,
          scope ∈ missing <-> scope ∈ requiredScopes /\ scope ∉ grantedScopes hs)
    /\ (missing = [] <-> forall scope, scope ∈ requiredScopes -> scope ∈ grantedScopes hs).
Proof.
  intros Hw Hok Hjson [items [Hprop Hitems]].
  set (G := grantedScopes hs).
  assert (Hrun :
    run w calls (getMissingScopes shop token requiredScopes)
    = (calls ++ [scopesRequest shop token],
       Returned (List.filter (fun scope => negb (bool_decide (scope ∈ G)))
                   requiredScopes))).
  { unfold getMissingScopes. rewrite run_bind, run_fetch, Hw, Hok. cbn [negb].
    rewrite run_bind, run_settle, Hjson.
    destruct data as [| | | | |fields]; cbn [ownProp] in Hprop; try discriminate.
    rewrite run_bind. cbn [getProp run]. rewrite Hprop.
    rewrite run_bind, (arrayMap_handleOf _ _ _ _ Hitems). cbn [run].
    do 2 f_equal. apply filter_ext. intros scope. f_equal.
    apply bool_decide_ext. rewrite elem_of_list_to_set. reflexivity. }
  eexists. split; [exact Hrun|]. split; [reflexivity|].
  split; [apply filter_sublist|]. split.
  - intros scope. rewrite elem_of_filter_bool, negb_true_iff, bool_decide_eq_false.
    reflexivity.
  - rewrite filter_bool_nil. split; intros H scope Hin; specialize (H scope Hin).
    + apply negb_false_iff, bool_decide_eq_true in H. exact H.
    + apply negb_false_iff, bool_decide_eq_true. exact H.
Qed.

(** ** The required scopes *)

Lemma filter_map_trim (fields : list jsstring) :
  List.filter nonEmpty (map trim fields)
  = map trim (List.filter (fun field => nonEmpty (trim field)) fields).
Proof.
  induction fields as [|f fs IH]; [reflexivity|].
  cbn [map List.filter]. destruct (nonEmpty (trim f)); cbn [map]; now rewrite IH.
Qed.

(** C5 (as amended).  The required-scope list is the comma-separated
    fields of the configuration string, each trimmed, the empty ones
    discarded, in their order: every field whose trimmed text is not empty
    gives one entry, so a scope written twice is listed twice.  Each entry is
    not empty, has no comma and no white space at either end. *)
Theorem getRequiredScopes_fields (s : jsstring) :
  getRequiredScopes (Some s)
  = map trim (List.filter (fun field => nonEmpty (trim field)) (split comma s))
  /\ join [comma] (split comma s) = s
  /\ Forall (fun field => comma ∉ field) (split comma s)
  /\ Forall (fun scope => scope <> [] /\ trim scope = scope /\ comma ∉ scope)
       (getRequiredScopes (Some s)).
Proof.
  split; [apply filter_map_trim|]. split; [apply join_split|].
  split; [apply split_fields_free|].
  apply Forall_forall. intros scope Hin.
  unfold getRequiredScopes in Hin. cbn [default] in Hin.
  apply elem_of_filter_bool in Hin. destruct Hin as [Hin Hne].
  apply list_elem_of_fmap in Hin. destruct Hin as [field [-> Hfield]].
  split; [|split].
  - intros E. rewrite E in Hne. discriminate.
  - apply trim_idem.
  - intros Hc. apply trim_elem in Hc.
    pose proof (split_fields_free comma s) as Hfree.
    rewrite Forall_forall in Hfree. exact (Hfree field Hfield Hc).
Qed.

(** ** The query forwarder *)

Lemma run_getProp (w : platform) (calls : list FetchRequest) (data : json)
    (name : jsstring) :
  data <> JNull ->
  run w calls (getProp data name) = (calls, Returned (ownProp data name)).
Proof. destruct data; intros H; try reflexivity. contradiction. Qed.

(** What [runShopifyQuery] does with a success response that parses to a
    value other than [null]. *)
Lemma runShopifyQuery_parsed (w : platform) (calls : list FetchRequest)
    (p : GraphqlParams) (res : Response) (data : json) :
  w calls (graphqlRequest p) = inr res ->
  res_ok res = true ->
  res_json res = inr data ->
  data <> JNull ->
  run w calls (runShopifyQuery p)
  = (calls ++ [graphqlRequest p],
     if truthy (ownProp data (lit "errors"))
     then Raised (ErrorObject (lit "Shopify GraphQL errors: "
                                 ++ stringifyValue (ownProp data (lit "errors"))))
     else Returned (nullish (ownProp data (lit "data")) data)).
Proof.
  intros Hw Hok Hjson Hnn. unfold runShopifyQuery.
  rewrite run_bind, run_fetch, Hw, Hok. cbn [negb].
  rewrite run_bind, run_settle, Hjson.
  rewrite run_bind, (run_getProp _ _ _ _ Hnn).
  destruct (truthy (ownProp data (lit "errors"))); [reflexivity|].
  rewrite run_bind, (run_getProp _ _ _ _ Hnn). reflexivity.
Qed.

(** C3 (as amended).  For a success response that parses to a value other
    than [null], [runShopifyQuery] fails exactly when the [errors] field is
    truthy, and then with the error whose message carries the serialized
    [errors] value.  Every [errors] array is truthy, the empty one too, so
    it fails the call whether or not [data] is present; when [errors] is
    absent the call returns. *)
Theorem runShopifyQuery_fails_iff_errors_truthy
    (w : platform) (calls : list FetchRequest) (p : GraphqlParams)
    (res : Response) (data : json) :
  w calls (graphqlRequest p) = inr res ->
  res_ok res = true ->
  res_json res = inr data ->
  data <> JNull ->
  let errors := ownProp data (lit "errors") in
  let result := snd (run w calls (runShopifyQuery p)) in
  ((exists e, result = Raised e) <-> truthy errors = true)
  /\ (truthy errors = true ->
      result = Raised (ErrorObject (lit "Shopify GraphQL errors: "
                                      ++ stringifyValue errors)))
  /\ (forall items, errors = Some (JArr items) ->
      result = Raised (ErrorObject (lit "Shopify GraphQL errors: "
                                      ++ JSON_stringify (JArr items))))
  /\ (errors = None ->
      result = Returned (nullish (ownProp data (lit "data")) data)).
Proof.
  intros Hw Hok Hjson Hnn errors result. subst result.
  rewrite (runShopifyQuery_parsed _ _ _ _ _ Hw Hok Hjson Hnn). cbn [snd].
  fold errors. repeat split.
  - intros [e He]. destruct (truthy errors); [reflexivity | discriminate].
  - intros ->. eauto.
  - intros ->. reflexivity.
  - intros items ->. reflexivity.
  - intros ->. reflexivity.
Qed.

(** C8 (as amended).  For a success response that parses to a value other
    than [null] and whose [errors] field is absent or falsy,
    [runShopifyQuery] returns the value of the [data] field when that field
    is present and not [null]; when it is absent or [null] it returns the
    whole parsed response, unchanged. *)
Theorem runShopifyQuery_returns_data_or_response
    (w : platform) (calls : list FetchRequest) (p : GraphqlParams)
    (res : Response) (data : json) :
  w calls (graphqlRequest p) = inr res ->
  res_ok res = true ->
  res_json res = inr data ->
  data <> JNull ->
  truthy (ownProp data (lit "errors")) = false ->
  let result := snd (run w calls (runShopifyQuery p)) in
  (forall v, ownProp data (lit "data") = Some v -> v <> JNull -> result = Returned v)
  /\ (ownProp data (lit "data") = None \/ ownProp data (lit "data") = Some JNull ->
      result = Returned data).
Proof.
  intros Hw Hok Hjson Hnn Herr result. subst result.
  rewrite (runShopifyQuery_parsed _ _ _ _ _ Hw Hok Hjson Hnn), Herr. cbn [snd].
  split.
  - intros v -> Hv. destruct v; try reflexivity. contradiction.
  - intros [-> | ->]; reflexivity.
Qed.

(** ** The orchestration *)

Lemma silent_return {A : Type} (a : A) : silent (Return a).
Proof. intros w calls. reflexivity. Qed.

Lemma silent_throw {A : Type} (e : exn) : silent (@Throw A e).
Proof. intros w calls. reflexivity. Qed.

Lemma silent_settle {A : Type} (r : exn + A) : silent (settle r).
Proof. intros w calls. now rewrite run_settle. Qed.

Lemma silent_getProp (v : json) (name : jsstring) : silent (getProp v name).
Proof. destruct v; first [apply silent_return | apply silent_throw]. Qed.

Lemma silent_handleOf (scope : json) : silent (handleOf scope).
Proof.
  apply silent_bind; [apply silent_getProp|].
  intros [[| | | | |]|]; first [apply silent_return | apply silent_throw].
Qed.

Lemma silent_arrayMap (items : list json) : silent (arrayMap handleOf items).
Proof.
  induction items as [|x rest IH]; [apply silent_return|].
  cbn [arrayMap]. apply silent_bind; [apply silent_handleOf|].
  intros y. apply silent_bind; [exact IH|]. intros ys. apply silent_return.
Qed.

(** [getMissingScopes] makes one call, the scope request, however it ends. *)
Lemma getMissingScopes_calls (w : platform) (calls : list FetchRequest)
    (shop token : jsstring) (requiredScopes : list jsstring) :
  fst (run w calls (getMissingScopes shop token requiredScopes))
  = calls ++ [scopesRequest shop token].
Proof.
  unfold getMissingScopes. rewrite run_bind, run_fetch.
  destruct (w calls (scopesRequest shop token)) as [e|res]; [reflexivity|].
  match goal with |- fst (run _ _ ?k) = _ => enough (Hs : silent k) by apply Hs end.
  destruct (negb (res_ok res)).
  - apply silent_bind; [apply silent_settle|]. intros text. apply silent_throw.
  - apply silent_bind; [apply silent_settle|]. intros data.
    apply silent_bind; [apply silent_getProp|].
    intros [[| | | |items|]|]; try apply silent_throw.
    apply silent_bind; [apply silent_arrayMap|]. intros handles. apply silent_return.
Qed.

(** [runShopifyQuery] makes one call, the query request, however it ends. *)
Lemma runShopifyQuery_calls (w : platform) (calls : list FetchRequest)
    (p : GraphqlParams) :
  fst (run w calls (runShopifyQuery p)) = calls ++ [graphqlRequest p].
Proof.
  unfold runShopifyQuery. rewrite run_bind, run_fetch.
  destruct (w calls (graphqlRequest p)) as [e|res]; [reflexivity|].
  match goal with |- fst (run _ _ ?k) = _ => enough (Hs : silent k) by apply Hs end.
  destruct (negb (res_ok res)).
  - apply silent_bind; [apply silent_settle|]. intros text. apply silent_throw.
  - apply silent_bind; [apply silent_settle|]. intros data.
    apply silent_bind; [apply silent_getProp|]. intros errors.
    destruct (truthy errors); [apply silent_throw|].
    apply silent_bind; [apply silent_getProp|]. intros d. apply silent_return.
Qed.

Lemma scopesRequest_not_graphqlRequest (shop token : jsstring) (p : GraphqlParams) :
  graphqlRequest p <> scopesRequest shop token.
Proof.
  intros H. apply (f_equal rq_method) in H. cbn [rq_method graphqlRequest scopesRequest] in H.
  revert H. vm_compute. discriminate.
Qed.

(** C2.  In every run of [validateAndQuery] the first call to the platform
    is the scope request, and a query request follows it only when the scope
    check returned the empty list.  Whenever the scope check returns a list
    [missing] that is not empty, the run ends with the error whose message
    lists [missing] (joined by a comma and a space), and the scope request
    is the only call made: no query request is sent. *)
Theorem validateAndQuery_checks_scopes_before_forwarding
    (w : platform) (calls : list FetchRequest) (config : ShopifyConfig)
    (query : jsstring) (variables : option json) :
  let scopeRequest := scopesRequest (shopDomain config) (accessToken config) in
  let scopeCheck :=
    run w calls (getMissingScopes (shopDomain config) (accessToken config)
                   (getRequiredScopes (scopes config))) in
  let r := run w calls (validateAndQuery config query variables) in
  (fst r = calls ++ [scopeRequest]
   \/ (snd scopeCheck = Returned []
       /\ exists p, fst r = calls ++ [scopeRequest; graphqlRequest p]))
  /\ (forall missing,
        snd scopeCheck = Returned missing -> missing <> [] ->
        r = (calls ++ [scopeRequest],
             Raised (ErrorObject (lit "Shopify 应用缺少以下授权："
                                    ++ join (lit ", ") missing
                                    ++ lit "。请重新安装应用以授予这些 scope。")))
        /\ forall p, graphqlRequest p ∉ [scopeRequest]).
Proof.
  intros scopeRequest scopeCheck r. subst r. unfold validateAndQuery.
  rewrite run_bind. fold scopeCheck.
  pose proof (getMissingScopes_calls w calls (shopDomain config) (accessToken config)
                (getRequiredScopes (scopes config))) as Hcalls.
  fold scopeCheck scopeRequest in Hcalls.
  destruct scopeCheck as [calls' [missing|e]]; cbn [fst snd] in *; subst calls'.
  - destruct missing as [|m ms].
    + cbn [length Nat.ltb Nat.leb]. split.
      * right. split; [reflexivity|]. eexists.
        rewrite runShopifyQuery_calls, <- app_assoc. reflexivity.
      * intros missing [= <-] H. contradiction.
    + cbn [length Nat.ltb Nat.leb run fst]. split; [now left|].
      intros missing [= <-] _. split; [reflexivity|].
      intros p Hin. apply list_elem_of_singleton in Hin.
      exact (scopesRequest_not_graphqlRequest _ _ _ Hin).
  - cbn [fst]. split; [now left|]. intros missing H. discriminate.
Qed.

(** ** The shared secret *)


Lemma nonEmpty_true (s : jsstring) : nonEmpty s = true <-> s <> [].
Proof. destruct s; cbn [nonEmpty]; split; congruence. Qed.




(** ** The HTTP adapter *)

Lemma requestListener_routes (config : ShopifyConfig) (req : IncomingMessage)
    (pathname : jsstring) :
  req_pathname req = inr pathname ->
  requestListener config req
  = if bool_decide (req_method req = lit "OPTIONS") then Return preflight
    else if bool_decide (pathname = lit "/health") || bool_decide (pathname = lit "/")
    then Return handleHealthCheck
    else if bool_decide (pathname = lit "/graphql") then
      if bool_decide (req_method req = lit "POST") then handleGraphQLRequest req config
      else if bool_decide (req_method req = lit "GET") then Return handleIntrospection
      else Return (sendError 405 (lit "Method not allowed. Use POST for GraphQL queries."))
    else Return (sendError 404 (lit "Not found. Use /graphql endpoint for GraphQL queries.")).
Proof. intros H. unfold requestListener. rewrite H. reflexivity. Qed.

Lemma requestListener_post_graphql (config : ShopifyConfig) (req : IncomingMessage) :
  req_method req = lit "POST" ->
  req_pathname req = inr (lit "/graphql") ->
  requestListener config req = handleGraphQLRequest req config.
Proof.
  intros Hm Hp. rewrite (requestListener_routes _ _ _ Hp), Hm.
  rewrite (bool_decide_eq_false_2 (lit "POST" = lit "OPTIONS")) by lit_neq.
  rewrite (bool_decide_eq_false_2 (lit "/graphql" = lit "/health")) by lit_neq.
  rewrite (bool_decide_eq_false_2 (lit "/graphql" = lit "/")) by lit_neq.
  cbn [orb]. rewrite !bool_decide_eq_true_2 by reflexivity. reflexivity.
Qed.


(** A body that is not JSON is answered 500, with no call made. *)
Lemma handleGraphQLRequest_invalid_json (w : platform) (calls : list FetchRequest)
    (req : IncomingMessage) (config : ShopifyConfig) (text : jsstring) :
  validateApiKey req = true ->
  req_body req = BodyRead text None ->
  run w calls (handleGraphQLRequest req config)
  = (calls, Returned (sendError 500 (lit "Invalid JSON body"))).
Proof.
  intros Hk Hb. unfold handleGraphQLRequest, parseRequestBody. rewrite Hk, Hb.
  reflexivity.
Qed.

(** A body that parses to [null] is answered 500, with no call made. *)
Lemma handleGraphQLRequest_null_body (w : platform) (calls : list FetchRequest)
    (req : IncomingMessage) (config : ShopifyConfig) (text : jsstring) :
  validateApiKey req = true ->
  req_body req = BodyRead text (Some JNull) ->
  run w calls (handleGraphQLRequest req config)
  = (calls, Returned (sendError 500 (TypeError_message (DestructureOfNull (lit "query"))))).
Proof.
  intros Hk Hb. unfold handleGraphQLRequest, parseRequestBody. rewrite Hk, Hb.
  reflexivity.
Qed.

(** A body that parses to a value other than [null] and has no [query]
    that is a non-empty string is answered 400, with no call made. *)
Lemma handleGraphQLRequest_missing_query (w : platform) (calls : list FetchRequest)
    (req : IncomingMessage) (config : ShopifyConfig) (text : jsstring)
    (parsed : json) :
  validateApiKey req = true ->
  req_body req = BodyRead text (Some parsed) ->
  parsed <> JNull ->
  (forall q, ownProp parsed (lit "query") = Some (JStr q) -> q = []) ->
  run w calls (handleGraphQLRequest req config)
  = (calls, Returned (sendError 400 (lit "Missing or invalid 'query' field"))).
Proof.
  intros Hk Hb Hnn Hq. unfold handleGraphQLRequest, parseRequestBody. rewrite Hk, Hb.
  cbn [negb]. rewrite run_catch, run_bind. cbn [run].
  assert (Hd : destructure parsed
               = Return (ownProp parsed (lit "query"), ownProp parsed (lit "variables"))).
  { destruct parsed; try reflexivity. contradiction. }
  rewrite run_bind, Hd. cbn [run fst snd].
  destruct (ownProp parsed (lit "query")) as [[|b|x|q|items|fields]|];
    cbn [truthy isString negb]; rewrite ?orb_true_r; try reflexivity.
  rewrite (Hq q eq_refl). reflexivity.
Qed.




Lemma sendJson_cors (status : N) (data : json) : corsHeaders (sendJson status data).
Proof.
  unfold corsHeaders, sendJson. cbn [headers].
  repeat split; apply list_elem_of_In; cbn [In]; tauto.
Qed.

Lemma preflight_cors : corsHeaders preflight.
Proof.
  unfold corsHeaders, preflight. cbn [headers].
  repeat split; apply list_elem_of_In; cbn [In]; tauto.
Qed.

Lemma run_bind_returned {A B : Type} (w : platform) (p : prog A) (f : A -> prog B)
    (calls calls' : list FetchRequest) (b : B) :
  run w calls (p ≫= f) = (calls', Returned b) ->
  exists c a, run w calls p = (c, Returned a) /\ run w c (f a) = (calls', Returned b).
Proof.
  rewrite run_bind. destruct (run w calls p) as [c [a|e]]; [eauto | discriminate].
Qed.

(** Whatever [handleGraphQLRequest] answers, it sends through [sendJson]. *)
Lemma handleGraphQLRequest_sends_json (w : platform) (calls calls' : list FetchRequest)
    (req : IncomingMessage) (config : ShopifyConfig) (resp : ServerResponse) :
  run w calls (handleGraphQLRequest req config) = (calls', Returned resp) ->
  exists status data, resp = sendJson status data.
Proof.
  unfold handleGraphQLRequest. destruct (validateApiKey req); cbn [negb].
  2:{ intros [= _ <-]. unfold sendError. eauto. }
  rewrite run_catch.
  match goal with |- context [run w calls ?p] => destruct (run w calls p) as [c [a|e]] eqn:E end.
  2:{ intros [= _ <-]. unfold sendError. eauto. }
  intros [= _ <-].
  apply run_bind_returned in E. destruct E as [c1 [parsed [_ E]]].
  apply run_bind_returned in E. destruct E as [c2 [qv [_ E]]].
  cbv zeta in E.
  destruct (negb (truthy (fst qv)) || negb (isString (fst qv))).
  - injection E as _ <-. unfold sendError. eauto.
  - apply run_bind_returned in E. destruct E as [c3 [data [_ E]]].
    injection E as _ <-. eauto.
Qed.

(** C10.  Every response built by [sendJson], whatever its status and its
    payload, carries the three CORS headers; and every response the server
    writes is either the preflight answer or built by [sendJson], and
    carries them too. *)
Theorem every_json_response_has_cors_headers :
  (forall status data, corsHeaders (sendJson status data))
  /\ (forall (w : platform) (calls calls' : list FetchRequest)
        (config : ShopifyConfig) (req : IncomingMessage) (resp : ServerResponse),
        run w calls (requestListener config req) = (calls', Returned resp) ->
        corsHeaders resp
        /\ (resp = preflight \/ exists status data, resp = sendJson status data)).
Proof.
  split; [apply sendJson_cors|].
  intros w calls calls' config req resp Hrun.
  enough (H : resp = preflight \/ exists status data, resp = sendJson status data).
  { split; [|exact H]. destruct H as [-> | [status [data ->]]];
      [apply preflight_cors | apply sendJson_cors]. }
  destruct (req_pathname req) as [e|pathname] eqn:Hp.
  { unfold requestListener in Hrun. rewrite Hp in Hrun. discriminate. }
  rewrite (requestListener_routes _ _ _ Hp) in Hrun.
  destruct (bool_decide (req_method req = lit "OPTIONS")).
  { injection Hrun as _ <-. now left. }
  right.
  destruct (bool_decide (pathname = lit "/health") || bool_decide (pathname = lit "/")).
  { injection Hrun as _ <-. unfold handleHealthCheck. eauto. }
  destruct (bool_decide (pathname = lit "/graphql")).
  2:{ injection Hrun as _ <-. unfold sendError. eauto. }
  destruct (bool_decide (req_method req = lit "POST")).
  { eapply handleGraphQLRequest_sends_json; eauto. }
  destruct (bool_decide (req_method req = lit "GET")).
  { injection Hrun as _ <-. unfold handleIntrospection. eauto. }
  injection Hrun as _ <-. unfold sendError. eauto.
Qed.

(** ** Further properties: the environment *)

Lemma run_requireEnv (w : platform) (calls : list FetchRequest) (env : Env)
    (name : jsstring) :
  inherited name = false ->
  run w calls (requireEnv env name)
  = (calls, match envValue env name with
            | Some v => Returned v
            | None => Raised (ErrorObject (lit "缺少环境变量 " ++ name))
            end).
Proof.
  intros Hn. unfold requireEnv, envTrimmed, envValue. rewrite Hn.
  destruct (env name) as [raw|]; [|reflexivity].
  rewrite run_bind. cbn [run fmap option_fmap option_map truthy].
  destruct (nonEmpty (trim raw)); reflexivity.
Qed.

(** The variables the program asks for are not inherited names. *)
Lemma own_names :
  inherited (lit "SHOP_DOMAIN") = false
  /\ inherited (lit "SHOP_ACCESS_TOKEN") = false
  /\ inherited (lit "SHOPIFY_GRAPHQL") = false.
Proof. repeat split; vm_compute; reflexivity. Qed.

Lemma envValue_trimmed (env : Env) (name v : jsstring) :
  envValue env name = Some v -> v <> [] /\ trim v = v.
Proof.
  unfold envValue. destruct (env name) as [raw|]; [|discriminate].
  destruct (nonEmpty (trim raw)) eqn:E; [|discriminate].
  intros [= <-]. split; [now apply nonEmpty_true | apply trim_idem].
Qed.

(** X1.  [requireEnv] returns the value of the variable with the white
    space at its ends removed when the variable is set and that text is
    not empty.  When the variable is set but empty or blank, or when the
    name is neither a variable nor a name inherited from [Object.prototype],
    it throws the error naming the variable.  For a name that is not a
    variable but is inherited ([constructor], [toString], ...), the value
    has no [trim] and the engine's TypeError is thrown.  What it returns is
    never empty and has no white space at either end. *)
Theorem requireEnv_value_or_error
    (w : platform) (calls : list FetchRequest) (env : Env) (name : jsstring) :
  (forall raw, env name = Some raw -> trim raw <> [] ->
     run w calls (requireEnv env name) = (calls, Returned (trim raw)))
  /\ ((env name = None /\ name ∉ objectPrototypeNames)
      \/ (exists raw, env name = Some raw /\ trim raw = []) ->
      run w calls (requireEnv env name)
      = (calls, Raised (ErrorObject (lit "缺少环境变量 " ++ name))))
  /\ (env name = None -> name ∈ objectPrototypeNames ->
      run w calls (requireEnv env name)
      = (calls, Raised (ErrorObject
                          (TypeError_message
                             (NotAFunction (lit "process.env[name]?.trim"))))))
  /\ (forall calls' v,
        run w calls (requireEnv env name) = (calls', Returned v) ->
        v <> [] /\ trim v = v).
Proof.
  unfold requireEnv, envTrimmed, inherited. split; [|split; [|split]].
  - intros raw -> Hne. rewrite run_bind. cbn [run fmap option_fmap option_map truthy].
    apply nonEmpty_true in Hne. now rewrite Hne.
  - intros [[-> Hni] | [raw [-> Hblank]]].
    + rewrite (bool_decide_eq_false_2 _ Hni). reflexivity.
    + rewrite run_bind. cbn [run fmap option_fmap option_map truthy].
      now rewrite Hblank.
  - intros -> Hin. rewrite (bool_decide_eq_true_2 _ Hin). reflexivity.
  - intros calls' v. destruct (env name) as [raw|].
    + rewrite run_bind. cbn [run fmap option_fmap option_map truthy].
      destruct (nonEmpty (trim raw)) eqn:E; cbn [negb run from_option id];
        [|discriminate].
      intros [= _ <-]. split; [now apply nonEmpty_true | apply trim_idem].
    + destruct (bool_decide (name ∈ objectPrototypeNames)); discriminate.
Qed.

(** ** Further properties: the required scopes *)

Lemma split_free (sep : N) (p : jsstring) : sep ∉ p -> split sep p = [p].
Proof.
  induction p as [|c r IH]; intros H; [reflexivity|].
  cbn [split]. destruct (N.eqb_spec c sep) as [->|Hne].
  - exfalso. apply H. apply list_elem_of_here.
  - rewrite IH; [reflexivity|]. intros Hin. apply H. now apply list_elem_of_further.
Qed.

Lemma split_app_sep (sep : N) (p s : jsstring) :
  sep ∉ p -> split sep (p ++ sep :: s) = p :: split sep s.
Proof.
  induction p as [|c r IH]; intros H; cbn [app split].
  - now rewrite N.eqb_refl.
  - destruct (N.eqb_spec c sep) as [->|Hne].
    + exfalso. apply H. apply list_elem_of_here.
    + rewrite IH; [reflexivity|]. intros Hin. apply H. now apply list_elem_of_further.
Qed.

Lemma split_join (sep : N) (parts : list jsstring) :
  parts <> [] -> Forall (fun p => sep ∉ p) parts ->
  split sep (join [sep] parts) = parts.
Proof.
  induction parts as [|p rest IH]; intros Hne Hfree; [contradiction|].
  inversion Hfree as [|? ? Hp Hrest]; subst.
  destruct rest as [|q rest'].
  - cbn [join]. now apply split_free.
  - rewrite join_cons. cbn [app]. rewrite (split_app_sep _ _ _ Hp).
    f_equal. apply IH; [discriminate | exact Hrest].
Qed.

Lemma getRequiredScopes_entries (scopesEnv : option jsstring) :
  Forall (fun scope => scope <> [] /\ trim scope = scope /\ comma ∉ scope)
    (getRequiredScopes scopesEnv).
Proof.
  apply Forall_forall. intros scope Hin. unfold getRequiredScopes in Hin.
  apply elem_of_filter_bool in Hin. destruct Hin as [Hin Hne].
  apply list_elem_of_fmap in Hin. destruct Hin as [field [-> Hfield]].
  split; [|split].
  - now apply nonEmpty_true.
  - apply trim_idem.
  - intros Hc. apply trim_elem in Hc.
    pose proof (split_fields_free comma (default DEFAULT_SCOPES scopesEnv)) as Hfree.
    rewrite Forall_forall in Hfree. exact (Hfree field Hfield Hc).
Qed.

Lemma filter_trim_id (l : list jsstring) :
  Forall (fun scope => scope <> [] /\ trim scope = scope /\ comma ∉ scope) l ->
  List.filter nonEmpty (map trim l) = l.
Proof.
  induction 1 as [|x l [Hne [Ht _]] _ IH]; [reflexivity|].
  cbn [map List.filter]. rewrite Ht. apply nonEmpty_true in Hne.
  rewrite Hne, IH. reflexivity.
Qed.

(** X2.  The required-scope list is a fixed point of its own parsing:
    joining the parsed scopes with commas and parsing that string again gives
    the same list, for every configuration string and for the default. *)
Theorem getRequiredScopes_join_roundtrip (scopesEnv : option jsstring) :
  getRequiredScopes (Some (join [comma] (getRequiredScopes scopesEnv)))
  = getRequiredScopes scopesEnv.
Proof.
  pose proof (getRequiredScopes_entries scopesEnv) as He.
  set (l := getRequiredScopes scopesEnv) in *.
  unfold getRequiredScopes at 1. cbn [from_option id].
  destruct l as [|x l'] eqn:El; [reflexivity|].
  rewrite split_join.
  - now apply filter_trim_id.
  - discriminate.
  - eapply Forall_impl; [exact He|]. intros scope [_ [_ H]]. exact H.
Qed.

(** ** Further properties: the scope validator and the forwarder *)

Lemma handleOf_returned (w : platform) (calls calls' : list FetchRequest)
    (scope : json) (h : jsstring) :
  run w calls (handleOf scope) = (calls', Returned h) ->
  exists s, scopeEntry scope s.
Proof.
  unfold handleOf. intros H. apply run_bind_returned in H.
  destruct H as [c [handle [Hp H]]].
  destruct scope as [| | | | |fields]; cbn [getProp TypeError run] in Hp;
    try discriminate; injection Hp as _ <-; cbn [TypeError run] in H; try discriminate.
  destruct (assoc (lit "handle") fields) as [[| | |s| |]|] eqn:E;
    cbn [TypeError run] in H; try discriminate.
  exists s, fields. now split.
Qed.

Lemma arrayMap_handleOf_returned (w : platform) (items : list json) :
  forall (calls calls' : list FetchRequest) (handles : list jsstring),
    run w calls (arrayMap handleOf items) = (calls', Returned handles) ->
    exists hs, Forall2 scopeEntry items hs.
Proof.
  induction items as [|x rest IH]; intros calls calls' handles H.
  - exists []. constructor.
  - cbn [arrayMap] in H. apply run_bind_returned in H.
    destruct H as [c [y [Hx H]]]. apply run_bind_returned in H.
    destruct H as [c2 [ys [Hrest _]]].
    destruct (handleOf_returned _ _ _ _ _ Hx) as [s Hs].
    destruct (IH _ _ _ Hrest) as [hs Hhs].
    exists (s :: hs). now constructor.
Qed.

(** X3.  [getMissingScopes] returns a list only when the platform answered
    the scope request with a success status and a body that parses to an
    object whose [access_scopes] is an array of objects each with a string
    [handle]; on every other answer it throws. *)
Theorem getMissingScopes_returns_only_for_scope_list
    (w : platform) (calls calls' : list FetchRequest) (shop token : jsstring)
    (requiredScopes missing : list jsstring) :
  run w calls (getMissingScopes shop token requiredScopes) = (calls', Returned missing) ->
  exists res data hs,
    w calls (scopesRequest shop token) = inr res
    /\ res_ok res = true
    /\ res_json res = inr data
    /\ scopeList data hs.
Proof.
  unfold getMissingScopes. intros H. apply run_bind_returned in H.
  destruct H as [c [res [Hf H]]]. rewrite run_fetch in Hf.
  destruct (w calls (scopesRequest shop token)) as [e|res0] eqn:Hw; [discriminate|].
  injection Hf as <- <-. exists res0.
  destruct (res_ok res0) eqn:Hok; cbn [negb] in H.
  2:{ apply run_bind_returned in H. destruct H as [c1 [text [_ H]]]. discriminate. }
  apply run_bind_returned in H. destruct H as [c1 [data [Hj H]]].
  rewrite run_settle in Hj. destruct (res_json res0) as [e|data0] eqn:Hjson; [discriminate|].
  injection Hj as <- <-. exists data0.
  apply run_bind_returned in H. destruct H as [c2 [scopes [Hp H]]].
  destruct data0 as [| | | | |fields]; cbn [getProp TypeError run] in Hp;
    try discriminate; injection Hp as <- <-; cbn [TypeError run] in H; try discriminate.
  destruct (assoc (lit "access_scopes") fields) as [[| | | |items|]|] eqn:E;
    cbn [TypeError run] in H; try discriminate.
  apply run_bind_returned in H. destruct H as [c3 [handles [Hm _]]].
  destruct (arrayMap_handleOf_returned _ _ _ _ _ Hm) as [hs Hhs].
  exists hs. repeat split; try reflexivity. exists items. split; [exact E | exact Hhs].
Qed.

(** X4.  When the scope request is answered with a status outside 200-299,
    [getMissingScopes] fails with the error that carries the status, the
    status text and the body text; the body is not parsed. *)
Theorem getMissingScopes_upstream_failure
    (w : platform) (calls : list FetchRequest) (shop token : jsstring)
    (requiredScopes : list jsstring) (res : Response) (text : jsstring) :
  w calls (scopesRequest shop token) = inr res ->
  res_ok res = false ->
  res_text res = inr text ->
  run w calls (getMissingScopes shop token requiredScopes)
  = (calls ++ [scopesRequest shop token],
     Raised (ErrorObject (lit "获取 Shopify 授权 scope 失败 (" ++ ofN (res_status res)
                            ++ lit " " ++ res_statusText res ++ lit "): " ++ text))).
Proof.
  intros Hw Hok Ht. unfold getMissingScopes.
  rewrite run_bind, run_fetch, Hw, Hok. cbn [negb].
  rewrite run_bind, run_settle, Ht. reflexivity.
Qed.

(** X5.  When the query request is answered with a status outside 200-299,
    [runShopifyQuery] fails with the error that carries the status, the
    status text and the body text, whatever the body would parse to. *)
Theorem runShopifyQuery_upstream_failure
    (w : platform) (calls : list FetchRequest) (p : GraphqlParams)
    (res : Response) (text : jsstring) :
  w calls (graphqlRequest p) = inr res ->
  res_ok res = false ->
  res_text res = inr text ->
  run w calls (runShopifyQuery p)
  = (calls ++ [graphqlRequest p],
     Raised (ErrorObject (lit "Shopify API error (" ++ ofN (res_status res) ++ lit " "
                            ++ res_statusText res ++ lit "): " ++ text))).
Proof.
  intros Hw Hok Ht. unfold runShopifyQuery.
  rewrite run_bind, run_fetch, Hw, Hok. cbn [negb].
  rewrite run_bind, run_settle, Ht. reflexivity.
Qed.

(** ** Further properties: the orchestration *)

(** The parameters [validateAndQuery] gives to [runShopifyQuery]. *)
Lemma validateAndQuery_run (w : platform) (calls : list FetchRequest)
    (config : ShopifyConfig) (query : jsstring) (variables : option json) :
  run w calls (validateAndQuery config query variables)
  = match run w calls (getMissingScopes (shopDomain config) (accessToken config)
                         (getRequiredScopes (scopes config))) with
    | (c, Returned []) =>
        run w c (runShopifyQuery
                   {| gp_shop := shopDomain config;
                      gp_accessToken := accessToken config;
                      gp_query := query;
                      gp_variables := variables;
                      gp_apiVersion := Some (effectiveVersion (apiVersion config)) |})
    | (c, Returned (m :: ms)) =>
        (c, Raised (ErrorObject (missingScopesMessage (m :: ms))))
    | (c, Raised e) => (c, Raised e)
    end.
Proof.
  unfold validateAndQuery. rewrite run_bind.
  destruct (run w calls _) as [c [[|m ms]|e]]; reflexivity.
Qed.

(** X6.  Whatever makes the scope check fail (a rejected [fetch], a
    non-success status, a body that is not the scope list),
    [validateAndQuery] fails with the same thrown value, and the scope
    request is the only call it makes. *)
Theorem validateAndQuery_propagates_scope_check_failure
    (w : platform) (calls calls' : list FetchRequest) (config : ShopifyConfig)
    (query : jsstring) (variables : option json) (e : exn) :
  run w calls (getMissingScopes (shopDomain config) (accessToken config)
                 (getRequiredScopes (scopes config)))
  = (calls', Raised e) ->
  run w calls (validateAndQuery config query variables)
  = (calls ++ [scopesRequest (shopDomain config) (accessToken config)], Raised e).
Proof.
  intros H. rewrite validateAndQuery_run.
  pose proof (getMissingScopes_calls w calls (shopDomain config) (accessToken config)
                (getRequiredScopes (scopes config))) as Hc.
  rewrite H in *. cbn [fst] in Hc. now subst calls'.
Qed.

(** X7.  When no required scope is missing, [validateAndQuery] ends as
    [runShopifyQuery] ends, run after the scope request with the configured
    shop, token, query and variables, and with the configured API version,
    or [2024-10] when none is configured or it is the empty string. *)
Theorem validateAndQuery_forwards_when_nothing_missing
    (w : platform) (calls calls' : list FetchRequest) (config : ShopifyConfig)
    (query : jsstring) (variables : option json) :
  run w calls (getMissingScopes (shopDomain config) (accessToken config)
                 (getRequiredScopes (scopes config)))
  = (calls', Returned []) ->
  let params := {| gp_shop := shopDomain config;
                   gp_accessToken := accessToken config;
                   gp_query := query;
                   gp_variables := variables;
                   gp_apiVersion := Some (effectiveVersion (apiVersion config)) |} in
  run w calls (validateAndQuery config query variables)
  = run w (calls ++ [scopesRequest (shopDomain config) (accessToken config)])
      (runShopifyQuery params)
  /\ fst (run w calls (validateAndQuery config query variables))
     = calls ++ [scopesRequest (shopDomain config) (accessToken config);
                 graphqlRequest params]
  /\ rq_url (graphqlRequest params)
     = lit "https://" ++ shopDomain config ++ lit "/admin/api/"
         ++ effectiveVersion (apiVersion config) ++ lit "/graphql.json".
Proof.
  intros H params. rewrite validateAndQuery_run.
  pose proof (getMissingScopes_calls w calls (shopDomain config) (accessToken config)
                (getRequiredScopes (scopes config))) as Hc.
  rewrite H in *. cbn [fst] in Hc. subst calls'. fold params.
  split; [reflexivity|]. split; [|reflexivity].
  rewrite runShopifyQuery_calls, <- app_assoc. reflexivity.
Qed.

Lemma validateAndQuery_calls (w : platform) (calls : list FetchRequest)
    (config : ShopifyConfig) (query : jsstring) (variables : option json) :
  exists rest,
    fst (run w calls (validateAndQuery config query variables))
    = calls ++ scopesRequest (shopDomain config) (accessToken config) :: rest.
Proof.
  rewrite validateAndQuery_run.
  pose proof (getMissingScopes_calls w calls (shopDomain config) (accessToken config)
                (getRequiredScopes (scopes config))) as Hc.
  destruct (run w calls (getMissingScopes _ _ _)) as [c [[|m ms]|e]];
    cbn [fst] in *; subst c.
  - eexists. rewrite runShopifyQuery_calls, <- app_assoc. reflexivity.
  - now exists [].
  - now exists [].
Qed.

(** ** Further properties: the server *)

(** X8.  Before the server is created, [main] requires [SHOP_DOMAIN] and
    then [SHOP_ACCESS_TOKEN]: when one is not set or blank it fails with the
    error naming the first such variable; otherwise the configuration holds
    both values trimmed, and [SHOPIFY_API_VERSION] and [SHOPIFY_SCOPES] as
    they are in the environment. *)
Theorem serverConfig_requires_domain_and_token
    (w : platform) (calls : list FetchRequest) (env : Env) :
  run w calls (serverConfig env)
  = (calls,
     match envValue env (lit "SHOP_DOMAIN"), envValue env (lit "SHOP_ACCESS_TOKEN") with
     | None, _ => Raised (ErrorObject (lit "缺少环境变量 " ++ lit "SHOP_DOMAIN"))
     | Some _, None => Raised (ErrorObject (lit "缺少环境变量 " ++ lit "SHOP_ACCESS_TOKEN"))
     | Some domain, Some token =>
         Returned {| shopDomain := domain;
                     accessToken := token;
                     apiVersion := env (lit "SHOPIFY_API_VERSION");
                     scopes := env (lit "SHOPIFY_SCOPES") |}
     end)
  /\ (forall calls' config,
        run w calls (serverConfig env) = (calls', Returned config) ->
        shopDomain config <> [] /\ trim (shopDomain config) = shopDomain config
        /\ accessToken config <> [] /\ trim (accessToken config) = accessToken config).
Proof.
  assert (Hrun : run w calls (serverConfig env)
    = (calls,
       match envValue env (lit "SHOP_DOMAIN"), envValue env (lit "SHOP_ACCESS_TOKEN") with
       | None, _ => Raised (ErrorObject (lit "缺少环境变量 " ++ lit "SHOP_DOMAIN"))
       | Some _, None => Raised (ErrorObject (lit "缺少环境变量 " ++ lit "SHOP_ACCESS_TOKEN"))
       | Some domain, Some token =>
           Returned {| shopDomain := domain;
                       accessToken := token;
                       apiVersion := env (lit "SHOPIFY_API_VERSION");
                       scopes := env (lit "SHOPIFY_SCOPES") |}
       end)).
  { unfold serverConfig. rewrite run_bind, run_requireEnv by apply own_names.
    destruct (envValue env (lit "SHOP_DOMAIN")) as [domain|]; [|reflexivity].
    rewrite run_bind, run_requireEnv by apply own_names.
    destruct (envValue env (lit "SHOP_ACCESS_TOKEN")) as [token|]; reflexivity. }
  split; [exact Hrun|]. intros calls' config. rewrite Hrun.
  destruct (envValue env (lit "SHOP_DOMAIN")) as [domain|] eqn:Ed; [|discriminate].
  destruct (envValue env (lit "SHOP_ACCESS_TOKEN")) as [token|] eqn:Et; [|discriminate].
  intros [= _ <-]. cbn [shopDomain accessToken].
  destruct (envValue_trimmed _ _ _ Ed). destruct (envValue_trimmed _ _ _ Et). tauto.
Qed.

(** Every way [handleGraphQLRequest] ends. *)
Lemma handleGraphQLRequest_run (w : platform) (calls : list FetchRequest)
    (req : IncomingMessage) (config : ShopifyConfig) :
  run w calls (handleGraphQLRequest req config)
  = if negb (validateApiKey req) then
      (calls, Returned (sendError 401 (lit "Unauthorized: Invalid or missing API key")))
    else
      match req_body req with
      | BodyFailed e => (calls, Returned (sendError 500 (shownMessage e)))
      | BodyRead _ None => (calls, Returned (sendError 500 (lit "Invalid JSON body")))
      | BodyRead _ (Some JNull) =>
          (calls, Returned (sendError 500
                              (TypeError_message (DestructureOfNull (lit "query")))))
      | BodyRead _ (Some parsed) =>
          if negb (truthy (ownProp parsed (lit "query")))
             || negb (isString (ownProp parsed (lit "query")))
          then (calls, Returned (sendError 400 (lit "Missing or invalid 'query' field")))
          else
            match run w calls (validateAndQuery config
                                 (stringOf (ownProp parsed (lit "query")))
                                 (ownProp parsed (lit "variables"))) with
            | (c, Returned data) => (c, Returned (sendJson 200 (JObj [(lit "data", data)])))
            | (c, Raised e) => (c, Returned (sendError 500 (shownMessage e)))
            end
      end.
Proof.
  unfold handleGraphQLRequest. destruct (validateApiKey req); cbn [negb]; [|reflexivity].
  rewrite run_catch, run_bind. unfold parseRequestBody.
  destruct (req_body req) as [e|text [parsed|]]; cbn [run].
  - destruct e; reflexivity.
  - assert (Hd : parsed <> JNull ->
                 destructure parsed
                 = Return (ownProp parsed (lit "query"), ownProp parsed (lit "variables"))).
    { destruct parsed; try reflexivity. intros H. contradiction. }
    destruct parsed as [|b|x|s0|items|fields].
    + reflexivity.
    + rewrite run_bind, Hd by discriminate. reflexivity.
    + rewrite run_bind, Hd by discriminate. reflexivity.
    + rewrite run_bind, Hd by discriminate. reflexivity.
    + rewrite run_bind, Hd by discriminate. reflexivity.
    + rewrite run_bind, Hd by discriminate. cbn [run fst snd ownProp].
      destruct (negb (truthy (assoc (lit "query") fields))
                || negb (isString (assoc (lit "query") fields))); [reflexivity|].
      rewrite run_bind.
      destruct (run w calls (validateAndQuery _ _ _)) as [c [data|e]]; [reflexivity|].
      destruct e; reflexivity.
  - reflexivity.
Qed.

(** X9.  Once the secret check has passed, every error thrown while the
    request is handled is answered with the status 500 and, as body, the
    errors payload holding the error's message ([Unknown error] for a
    thrown value that is not an Error): a failure of the body stream, with
    no call made, and a failure of the orchestration, after the calls the
    orchestration made. *)
Theorem handleGraphQLRequest_answers_500_on_failure
    (w : platform) (calls : list FetchRequest) (req : IncomingMessage)
    (config : ShopifyConfig) :
  validateApiKey req = true ->
  (forall e, req_body req = BodyFailed e ->
     exists resp,
       run w calls (handleGraphQLRequest req config) = (calls, Returned resp)
       /\ resp = sendJson 500 (errorsPayload (shownMessage e))
       /\ statusCode resp = 500
       /\ body resp
          = JSON_stringify
              (JObj [(lit "errors",
                      JArr [JObj [(lit "message",
                                   JStr match e with
                                        | ErrorObject m => m
                                        | NotAnError => lit "Unknown error"
                                        end)]])]))
  /\ (forall text fields q calls' e,
        req_body req = BodyRead text (Some (JObj fields)) ->
        assoc (lit "query") fields = Some (JStr q) -> q <> [] ->
        run w calls (validateAndQuery config q (assoc (lit "variables") fields))
        = (calls', Raised e) ->
        exists resp,
          run w calls (handleGraphQLRequest req config) = (calls', Returned resp)
          /\ resp = sendJson 500 (errorsPayload (shownMessage e))
          /\ statusCode resp = 500
          /\ body resp
             = JSON_stringify
                 (JObj [(lit "errors",
                         JArr [JObj [(lit "message",
                                      JStr match e with
                                           | ErrorObject m => m
                                           | NotAnError => lit "Unknown error"
                                           end)]])])).
Proof.
  intros Hk. rewrite handleGraphQLRequest_run, Hk. cbn [negb]. split.
  - intros e ->. eexists. split; [reflexivity|]. split; [reflexivity|].
    split; reflexivity.
  - intros text fields q calls' e -> Hq Hne Hrun. cbn [ownProp]. rewrite Hq.
    cbn [truthy isString stringOf]. apply nonEmpty_true in Hne. rewrite Hne.
    cbn [negb orb]. rewrite Hrun. eexists. split; [reflexivity|].
    split; [reflexivity|]. split; reflexivity.
Qed.

(** X10.  A POST to [/graphql] that passes the secret check and holds a
    query, when the scope check finds scopes missing, is answered with the
    status 500 and, as body, the errors payload whose message lists them;
    the scope request is the only call. *)
Theorem missing_scopes_are_answered_500
    (w : platform) (calls calls' : list FetchRequest) (req : IncomingMessage)
    (config : ShopifyConfig) (text : jsstring) (fields : list (jsstring * json))
    (q : jsstring) (missing : list jsstring) :
  req_method req = lit "POST" ->
  req_pathname req = inr (lit "/graphql") ->
  validateApiKey req = true ->
  req_body req = BodyRead text (Some (JObj fields)) ->
  assoc (lit "query") fields = Some (JStr q) -> q <> [] ->
  run w calls (getMissingScopes (shopDomain config) (accessToken config)
                 (getRequiredScopes (scopes config)))
  = (calls', Returned missing) ->
  missing <> [] ->
  exists resp,
    run w calls (requestListener config req)
    = (calls ++ [scopesRequest (shopDomain config) (accessToken config)], Returned resp)
    /\ resp = sendJson 500
                (errorsPayload (lit "Shopify 应用缺少以下授权：" ++ join (lit ", ") missing
                                  ++ lit "。请重新安装应用以授予这些 scope。"))
    /\ statusCode resp = 500
    /\ body resp
       = JSON_stringify
           (JObj [(lit "errors",
                   JArr [JObj [(lit "message",
                                JStr (lit "Shopify 应用缺少以下授权：" ++ join (lit ", ") missing
                                        ++ lit "。请重新安装应用以授予这些 scope。"))]])]).
Proof.
  intros Hm Hp Hk Hb Hq Hne Hs Hmiss.
  rewrite (requestListener_post_graphql _ _ Hm Hp), handleGraphQLRequest_run, Hk, Hb.
  cbn [negb ownProp]. rewrite Hq. cbn [truthy isString stringOf].
  apply nonEmpty_true in Hne. rewrite Hne. cbn [negb orb].
  rewrite validateAndQuery_run.
  pose proof (getMissingScopes_calls w calls (shopDomain config) (accessToken config)
                (getRequiredScopes (scopes config))) as Hc.
  rewrite Hs in *. cbn [fst] in Hc. subst calls'.
  destruct missing as [|m ms]; [contradiction|].
  eexists. split; [reflexivity|]. split; [reflexivity|]. split; reflexivity.
Qed.

(** The routes of the listener, for a request whose URL parses. *)
Lemma requestListener_cases (config : ShopifyConfig) (req : IncomingMessage)
    (pathname : jsstring) :
  req_pathname req = inr pathname ->
  (req_method req = lit "OPTIONS" /\ requestListener config req = Return preflight)
  \/ (req_method req <> lit "OPTIONS"
      /\ (pathname = lit "/health" \/ pathname = lit "/")
      /\ requestListener config req = Return handleHealthCheck)
  \/ (req_method req = lit "POST" /\ pathname = lit "/graphql"
      /\ requestListener config req = handleGraphQLRequest req config)
  \/ (req_method req = lit "GET" /\ pathname = lit "/graphql"
      /\ requestListener config req = Return handleIntrospection)
  \/ (req_method req <> lit "OPTIONS" /\ req_method req <> lit "POST"
      /\ req_method req <> lit "GET" /\ pathname = lit "/graphql"
      /\ requestListener config req
         = Return (sendError 405 (lit "Method not allowed. Use POST for GraphQL queries.")))
  \/ (req_method req <> lit "OPTIONS"
      /\ pathname <> lit "/health" /\ pathname <> lit "/" /\ pathname <> lit "/graphql"
      /\ requestListener config req
         = Return (sendError 404 (lit "Not found. Use /graphql endpoint for GraphQL queries."))).
Proof.
  intros Hp. rewrite (requestListener_routes _ _ _ Hp).
  destruct (decide (req_method req = lit "OPTIONS")) as [Ho|Ho].
  { left. rewrite (bool_decide_eq_true_2 _ Ho). now split. }
  right. rewrite (bool_decide_eq_false_2 _ Ho).
  destruct (decide (pathname = lit "/health")) as [Hh|Hh].
  { left. rewrite (bool_decide_eq_true_2 _ Hh). cbn [orb]. tauto. }
  rewrite (bool_decide_eq_false_2 _ Hh).
  destruct (decide (pathname = lit "/")) as [Hr|Hr].
  { left. rewrite (bool_decide_eq_true_2 _ Hr). cbn [orb]. tauto. }
  right. rewrite (bool_decide_eq_false_2 _ Hr). cbn [orb].
  destruct (decide (pathname = lit "/graphql")) as [Hg|Hg].
  2:{ do 3 right. rewrite (bool_decide_eq_false_2 _ Hg). tauto. }
  rewrite (bool_decide_eq_true_2 _ Hg).
  destruct (decide (req_method req = lit "POST")) as [H1|H1].
  { left. rewrite (bool_decide_eq_true_2 _ H1). tauto. }
  right. rewrite (bool_decide_eq_false_2 _ H1).
  destruct (decide (req_method req = lit "GET")) as [H2|H2].
  { left. rewrite (bool_decide_eq_true_2 _ H2). tauto. }
  right. left. rewrite (bool_decide_eq_false_2 _ H2). tauto.
Qed.

Lemma handleGraphQLRequest_returns (w : platform) (calls : list FetchRequest)
    (req : IncomingMessage) (config : ShopifyConfig) :
  exists calls' resp,
    run w calls (handleGraphQLRequest req config) = (calls', Returned resp).
Proof.
  rewrite handleGraphQLRequest_run. destruct (negb (validateApiKey req)); [eauto|].
  destruct (req_body req) as [e|text [parsed|]]; [eauto| |eauto].
  destruct parsed; eauto;
    match goal with
    | |- context [if ?b then _ else _] => destruct b; [eauto|]
    end;
    match goal with
    | |- context [run w calls ?p] => destruct (run w calls p) as [c [data|e]]; eauto
    end.
Qed.

(** X11.  The listener answers every request whose URL parses: it returns
    a response and never rejects, whatever the platform does.  When the URL
    constructor throws, the listener rejects with that error before
    anything else: no response is written and no call is made. *)
Theorem requestListener_always_answers
    (w : platform) (calls : list FetchRequest) (config : ShopifyConfig)
    (req : IncomingMessage) :
  (forall pathname, req_pathname req = inr pathname ->
     exists calls' resp,
       run w calls (requestListener config req) = (calls', Returned resp))
  /\ (forall e, req_pathname req = inl e ->
        run w calls (requestListener config req) = (calls, Raised e)).
Proof.
  split.
  - intros pathname Hp.
    destruct (requestListener_cases config req pathname Hp)
      as [[_ ->] | [[_ [_ ->]] | [[_ [_ ->]] | [[_ [_ ->]] | [[_ [_ [_ [_ ->]]]] | [_ [_ [_ [_ ->]]]]]]]]];
      try (cbn [run]; eauto).
    apply handleGraphQLRequest_returns.
  - intros e He. unfold requestListener. rewrite He. reflexivity.
Qed.

(** X12.  A request with the method OPTIONS is answered with the preflight
    response (204, the CORS headers, no body) whatever its path, its
    Authorization header and its body, also when a secret is configured;
    no call to the platform is made. *)
Theorem options_is_answered_before_routing
    (w : platform) (calls : list FetchRequest) (config : ShopifyConfig)
    (req : IncomingMessage) (pathname : jsstring) :
  req_method req = lit "OPTIONS" ->
  req_pathname req = inr pathname ->
  run w calls (requestListener config req) = (calls, Returned preflight)
  /\ statusCode preflight = 204
  /\ body preflight = []
  /\ corsHeaders preflight.
Proof.
  intros Hm Hp. rewrite (requestListener_routes _ _ _ Hp).
  rewrite (bool_decide_eq_true_2 _ Hm).
  split; [reflexivity|]. split; [reflexivity|]. split; [reflexivity|].
  apply preflight_cors.
Qed.

(** X14.  The listener calls the platform only for a POST to [/graphql]
    that passes the secret check and whose body is an object with a [query]
    that is a non-empty string; and then its first call is the scope
    request.  For every other request no call is made. *)
Theorem platform_is_called_only_for_accepted_queries
    (w : platform) (calls calls' : list FetchRequest) (config : ShopifyConfig)
    (req : IncomingMessage) (o : outcome ServerResponse) :
  run w calls (requestListener config req) = (calls', o) ->
  calls' <> calls ->
  req_method req = lit "POST"
  /\ req_pathname req = inr (lit "/graphql")
  /\ validateApiKey req = true
  /\ (exists text fields q,
        req_body req = BodyRead text (Some (JObj fields))
        /\ assoc (lit "query") fields = Some (JStr q) /\ q <> [])
  /\ exists rest,
       calls' = calls ++ scopesRequest (shopDomain config) (accessToken config) :: rest.
Proof.
  intros Hrun Hne.
  destruct (req_pathname req) as [e|pathname] eqn:Hp.
  { unfold requestListener in Hrun. rewrite Hp in Hrun. injection Hrun as <- _.
    contradiction. }
  destruct (requestListener_cases config req pathname Hp)
    as [[_ E] | [[_ [_ E]] | [[Hm [-> E]] | [[_ [_ E]] | [[_ [_ [_ [_ E]]]] | [_ [_ [_ [_ E]]]]]]]]];
    rewrite E in Hrun; try (injection Hrun as <- _; contradiction).
  rewrite handleGraphQLRequest_run in Hrun.
  destruct (validateApiKey req) eqn:Hk; cbn [negb] in Hrun;
    [|injection Hrun as <- _; contradiction].
  destruct (req_body req) as [e|text [parsed|]] eqn:Hb;
    try (injection Hrun as <- _; contradiction).
  destruct parsed as [|b|x|s0|items|fields]; cbn [ownProp truthy isString negb orb] in Hrun;
    try (injection Hrun as <- _; contradiction).
  destruct (assoc (lit "query") fields) as [[|b|x|q|items|fs]|] eqn:Hq;
    cbn [truthy isString negb orb stringOf] in Hrun; rewrite ?orb_true_r in Hrun;
    try (injection Hrun as <- _; contradiction).
  destruct (nonEmpty q) eqn:Hnq; cbn [negb orb] in Hrun;
    [|injection Hrun as <- _; contradiction].
  split; [exact Hm|]. split; [reflexivity|]. split; [reflexivity|]. split.
  - exists text, fields, q. split; [reflexivity|]. split; [exact Hq|].
    now apply nonEmpty_true.
  - destruct (validateAndQuery_calls w calls config q (assoc (lit "variables") fields))
      as [rest Hrest].
    exists rest. rewrite <- Hrest.
    destruct (run w calls (validateAndQuery config q (assoc (lit "variables") fields)))
      as [c [data|e]]; now injection Hrun as <- _.
Qed.

(** X15.  The status of an answer tells its cause.  204 is answered
    exactly to OPTIONS.  401 is answered only to a POST to [/graphql] that
    the secret check refuses, with a secret configured.  404 only when the
    path is none of [/], [/health], [/graphql]; 405 only on [/graphql] for
    a method other than POST and GET.  400 only to a POST to [/graphql]
    whose body parsed and has no [query] that is a non-empty string.  With
    401, 400, 404 and 405 no call to the platform was made. *)
Theorem status_tells_the_cause
    (w : platform) (calls calls' : list FetchRequest) (config : ShopifyConfig)
    (req : IncomingMessage) (resp : ServerResponse) :
  run w calls (requestListener config req) = (calls', Returned resp) ->
  (statusCode resp = 204 <-> req_method req = lit "OPTIONS")
  /\ (statusCode resp = 401 ->
      req_method req = lit "POST" /\ req_pathname req = inr (lit "/graphql")
      /\ validateApiKey req = false
      /\ (exists key, API_KEY = Some key /\ key <> [])
      /\ calls' = calls)
  /\ (statusCode resp = 404 ->
      (exists pathname,
         req_pathname req = inr pathname /\ pathname <> lit "/"
         /\ pathname <> lit "/health" /\ pathname <> lit "/graphql")
      /\ calls' = calls)
  /\ (statusCode resp = 405 ->
      req_pathname req = inr (lit "/graphql")
      /\ req_method req <> lit "POST" /\ req_method req <> lit "GET"
      /\ calls' = calls)
  /\ (statusCode resp = 400 ->
      req_method req = lit "POST" /\ req_pathname req = inr (lit "/graphql")
      /\ (exists text parsed,
            req_body req = BodyRead text (Some parsed)
            /\ forall q, ownProp parsed (lit "query") = Some (JStr q) -> q = [])
      /\ calls' = calls).
Proof.
  intros Hrun.
  destruct (req_pathname req) as [e|pathname] eqn:Hp.
  { unfold requestListener in Hrun. rewrite Hp in Hrun. discriminate. }
  destruct (requestListener_cases config req pathname Hp)
    as [[Hm E] | [[Hm [Hpath E]] | [[Hm [-> E]] | [[Hm [-> E]] | [[Ho [H1 [H2 [-> E]]]] | [Ho [H1 [H2 [H3 E]]]]]]]]];
    rewrite E in Hrun.
  - injection Hrun as <- <-. cbn [statusCode preflight].
    repeat split; try discriminate; tauto.
  - injection Hrun as <- <-. cbn [statusCode handleHealthCheck sendJson].
    repeat split; try discriminate; intros H; congruence.
  - assert (Hpost : req_method req <> lit "OPTIONS").
    { rewrite Hm. lit_neq. }
    rewrite handleGraphQLRequest_run in Hrun.
    destruct (validateApiKey req) eqn:Hk; cbn [negb] in Hrun.
    2:{ injection Hrun as <- <-. cbn [statusCode sendError sendJson].
        repeat split; try discriminate; try congruence.
        unfold validateApiKey in Hk. destruct API_KEY as [key|]; [|discriminate].
        exists key. split; [reflexivity|]. intros ->. discriminate. }
    destruct (req_body req) as [e|text [parsed|]] eqn:Hb.
    + injection Hrun as <- <-. cbn [statusCode sendError sendJson].
      repeat split; try discriminate; congruence.
    + assert (Hcase : parsed = JNull \/ parsed <> JNull)
        by (destruct parsed; [now left | right; discriminate ..]).
      destruct Hcase as [->|Hnn].
      { injection Hrun as <- <-. cbn [statusCode sendError sendJson].
        repeat split; try discriminate; congruence. }
      assert (Hrun' :
        (if negb (truthy (ownProp parsed (lit "query")))
            || negb (isString (ownProp parsed (lit "query")))
         then (calls, Returned (sendError 400 (lit "Missing or invalid 'query' field")))
         else
           match run w calls (validateAndQuery config
                                (stringOf (ownProp parsed (lit "query")))
                                (ownProp parsed (lit "variables"))) with
           | (c, Returned data) => (c, Returned (sendJson 200 (JObj [(lit "data", data)])))
           | (c, Raised e) => (c, Returned (sendError 500 (shownMessage e)))
           end) = (calls', Returned resp)).
      { destruct parsed; try exact Hrun. contradiction. }
      clear Hrun.
      destruct (negb (truthy (ownProp parsed (lit "query")))
                || negb (isString (ownProp parsed (lit "query")))) eqn:Hq.
      * injection Hrun' as <- <-. cbn [statusCode sendError sendJson].
        repeat split; try discriminate; try congruence.
        exists text, parsed. split; [reflexivity|]. intros q Hsome.
        rewrite Hsome in Hq. cbn [truthy isString negb] in Hq.
        rewrite orb_false_r in Hq. destruct q; [reflexivity | discriminate].
      * destruct (run w calls (validateAndQuery _ _ _)) as [c [data|e]];
          injection Hrun' as <- <-; cbn [statusCode sendError sendJson];
          repeat split; try discriminate; congruence.
    + injection Hrun as <- <-. cbn [statusCode sendError sendJson].
      repeat split; try discriminate; congruence.
  - assert (Hget : req_method req <> lit "OPTIONS").
    { rewrite Hm. lit_neq. }
    injection Hrun as <- <-. cbn [statusCode handleIntrospection sendJson].
    repeat split; try discriminate; congruence.
  - injection Hrun as <- <-. cbn [statusCode sendError sendJson].
    repeat split; try discriminate; try congruence; try assumption.
  - injection Hrun as <- <-. cbn [statusCode sendError sendJson].
    repeat split; try discriminate; try congruence.
    exists pathname. tauto.
Qed.

Lemma validateApiKey_header (req1 req2 : IncomingMessage) :
  req_authorization req1 = req_authorization req2 ->
  validateApiKey req1 = validateApiKey req2.
Proof. unfold validateApiKey. now intros ->. Qed.

(** X16.  Of the request body the handler reads [query] and [variables]
    and nothing else: two requests with the same method, path and
    Authorization header whose bodies parse to values (other than [null])
    with the same [query] and the same [variables] make the same calls and
    get the same answer, whatever else the bodies hold ([operationName],
    for one, is never sent on). *)
Theorem only_query_and_variables_are_read
    (w : platform) (calls : list FetchRequest) (config : ShopifyConfig)
    (req1 req2 : IncomingMessage) (text1 text2 : jsstring) (parsed1 parsed2 : json) :
  req_method req1 = req_method req2 ->
  req_pathname req1 = req_pathname req2 ->
  req_authorization req1 = req_authorization req2 ->
  req_body req1 = BodyRead text1 (Some parsed1) ->
  req_body req2 = BodyRead text2 (Some parsed2) ->
  parsed1 <> JNull -> parsed2 <> JNull ->
  ownProp parsed1 (lit "query") = ownProp parsed2 (lit "query") ->
  ownProp parsed1 (lit "variables") = ownProp parsed2 (lit "variables") ->
  run w calls (requestListener config req1) = run w calls (requestListener config req2).
Proof.
  intros Hm Hp Ha Hb1 Hb2 Hn1 Hn2 Hq Hv.
  assert (Hh : run w calls (handleGraphQLRequest req1 config)
               = run w calls (handleGraphQLRequest req2 config)).
  { rewrite !handleGraphQLRequest_run, (validateApiKey_header _ _ Ha), Hb1, Hb2.
    destruct (negb (validateApiKey req2)); [reflexivity|].
    destruct parsed1; try contradiction; destruct parsed2; try contradiction;
      rewrite Hq, Hv; reflexivity. }
  destruct (req_pathname req2) as [e|pathname] eqn:Hp2.
  { unfold requestListener. rewrite Hp, Hp2. reflexivity. }
  rewrite (requestListener_routes _ req1 pathname Hp),
          (requestListener_routes _ req2 pathname Hp2), Hm.
  repeat (match goal with
          | |- context [if ?b then _ else _] => destruct b; try reflexivity
          end).
  exact Hh.
Qed.

(** ** Further properties: the scripts *)

(** Every way [cli_main] ends. *)
Lemma cli_main_run (pretty : json -> jsstring) (w : platform)
    (calls : list FetchRequest) (env : Env) (argv2 : option jsstring) :
  run w calls (cli_main pretty env argv2)
  = match envValue env (lit "SHOP_DOMAIN") with
    | None => (calls, Returned {| stdout := [];
                                  stderr := [errorLine (missingVariable (lit "SHOP_DOMAIN"))];
                                  exitCode := 1 |})
    | Some domain =>
        match envValue env (lit "SHOP_ACCESS_TOKEN") with
        | None => (calls, Returned {| stdout := [];
                                      stderr := [errorLine (missingVariable (lit "SHOP_ACCESS_TOKEN"))];
                                      exitCode := 1 |})
        | Some token =>
            match chosenQuery env argv2 with
            | None => (calls, Returned {| stdout := [];
                                          stderr := [errorLine (missingVariable (lit "SHOPIFY_GRAPHQL"))];
                                          exitCode := 1 |})
            | Some query =>
                match run w calls
                        (validateAndQuery
                           {| shopDomain := domain;
                              accessToken := token;
                              apiVersion := env (lit "SHOPIFY_API_VERSION");
                              scopes := env (lit "SHOPIFY_SCOPES") |} query None) with
                | (c, Returned data) =>
                    (c, Returned {| stdout := [pretty data];
                                    stderr := infoLines;
                                    exitCode := 0 |})
                | (c, Raised e) =>
                    (c, Returned {| stdout := [];
                                    stderr := infoLines ++ [errorLine e];
                                    exitCode := 1 |})
                end
            end
        end
    end.
Proof.
  unfold cli_main. rewrite run_catch, run_bind, run_requireEnv by apply own_names.
  destruct (envValue env (lit "SHOP_DOMAIN")) as [domain|]; [|reflexivity].
  rewrite run_bind, run_requireEnv by apply own_names.
  destruct (envValue env (lit "SHOP_ACCESS_TOKEN")) as [token|]; [|reflexivity].
  rewrite run_bind.
  assert (Hq : run w calls
                 (if truthy (JStr <$> (trim <$> argv2))
                  then Return (default [] (trim <$> argv2))
                  else requireEnv env (lit "SHOPIFY_GRAPHQL"))
               = (calls, match chosenQuery env argv2 with
                         | Some q => Returned q
                         | None => Raised (missingVariable (lit "SHOPIFY_GRAPHQL"))
                         end)).
  { unfold chosenQuery. destruct argv2 as [a|];
      cbn [fmap option_fmap option_map truthy from_option id].
    - destruct (nonEmpty (trim a)); [reflexivity|]. rewrite run_requireEnv by apply own_names.
      now destruct (envValue env (lit "SHOPIFY_GRAPHQL")).
    - rewrite run_requireEnv by apply own_names. now destruct (envValue env (lit "SHOPIFY_GRAPHQL")). }
  rewrite Hq. destruct (chosenQuery env argv2) as [query|]; [|reflexivity].
  rewrite run_catch, run_bind.
  destruct (run w calls (validateAndQuery _ query None)) as [c [data|e]]; reflexivity.
Qed.

(** X17.  The script never rejects and ends in one of two ways: with the
    exit status 0, the result pretty-printed as the only line on the
    standard output and the two info lines on the error stream; or with
    the exit status 1, nothing on the standard output and an [[error]] line
    last on the error stream. *)
Theorem cli_main_exit_status
    (pretty : json -> jsstring) (w : platform) (calls : list FetchRequest)
    (env : Env) (argv2 : option jsstring) :
  exists calls' result,
    run w calls (cli_main pretty env argv2) = (calls', Returned result)
    /\ ((exitCode result = 0
         /\ (exists data, stdout result = [pretty data])
         /\ stderr result = infoLines)
        \/ (exitCode result = 1
            /\ stdout result = []
            /\ exists err, last (stderr result) = Some (errorLine err))).
Proof.
  rewrite cli_main_run.
  destruct (envValue env (lit "SHOP_DOMAIN")) as [domain|].
  2:{ do 2 eexists. split; [reflexivity|]. right. cbn. eauto. }
  destruct (envValue env (lit "SHOP_ACCESS_TOKEN")) as [token|].
  2:{ do 2 eexists. split; [reflexivity|]. right. cbn. eauto. }
  destruct (chosenQuery env argv2) as [query|].
  2:{ do 2 eexists. split; [reflexivity|]. right. cbn. eauto. }
  destruct (run w calls (validateAndQuery _ query None)) as [c [data|e]].
  - do 2 eexists. split; [reflexivity|]. left. cbn. eauto.
  - do 2 eexists. split; [reflexivity|]. right.
    cbn [exitCode stdout stderr]. repeat split. exists e. apply last_snoc.
Qed.

(** X18.  When [SHOP_DOMAIN], [SHOP_ACCESS_TOKEN] or the query (argument
    and [SHOPIFY_GRAPHQL]) is missing or blank, the script ends with the
    exit status 1 and a single error line naming a missing variable, has
    written no info line, and has made no call to the platform. *)
Theorem cli_main_missing_input
    (pretty : json -> jsstring) (w : platform) (calls : list FetchRequest)
    (env : Env) (argv2 : option jsstring) :
  envValue env (lit "SHOP_DOMAIN") = None
  \/ envValue env (lit "SHOP_ACCESS_TOKEN") = None
  \/ chosenQuery env argv2 = None ->
  exists name,
    name ∈ [lit "SHOP_DOMAIN"; lit "SHOP_ACCESS_TOKEN"; lit "SHOPIFY_GRAPHQL"]
    /\ envValue env name = None
    /\ run w calls (cli_main pretty env argv2)
       = (calls, Returned {| stdout := [];
                             stderr := [lit "[error] " ++ lit "缺少环境变量 " ++ name];
                             exitCode := 1 |}).
Proof.
  intros H. rewrite cli_main_run.
  destruct (envValue env (lit "SHOP_DOMAIN")) as [domain|] eqn:Ed.
  2:{ exists (lit "SHOP_DOMAIN"). split; [apply list_elem_of_here|]. now split. }
  destruct (envValue env (lit "SHOP_ACCESS_TOKEN")) as [token|] eqn:Et.
  2:{ exists (lit "SHOP_ACCESS_TOKEN").
      split; [apply list_elem_of_further, list_elem_of_here|]. now split. }
  destruct H as [H | [H | H]]; try discriminate. rewrite H.
  exists (lit "SHOPIFY_GRAPHQL").
  split; [do 2 apply list_elem_of_further; apply list_elem_of_here|].
  split; [|reflexivity].
  unfold chosenQuery in H. destruct argv2 as [a|]; [|exact H].
  destruct (nonEmpty (trim a)); [discriminate | exact H].
Qed.

(** X19.  With the domain and the token set, the script runs the
    orchestration once, with the trimmed domain and token, the API version
    and the scopes of the environment, no variables, and as query the
    command-line argument when, trimmed, it is not empty ([SHOPIFY_GRAPHQL]
    is then not looked at), else [SHOPIFY_GRAPHQL]; it prints the result, or
    the error line after the two info lines. *)
Theorem cli_main_runs_the_orchestration
    (pretty : json -> jsstring) (w : platform) (calls : list FetchRequest)
    (env : Env) (argv2 : option jsstring) (domain token query : jsstring) :
  envValue env (lit "SHOP_DOMAIN") = Some domain ->
  envValue env (lit "SHOP_ACCESS_TOKEN") = Some token ->
  chosenQuery env argv2 = Some query ->
  let config := {| shopDomain := domain;
                   accessToken := token;
                   apiVersion := env (lit "SHOPIFY_API_VERSION");
                   scopes := env (lit "SHOPIFY_SCOPES") |} in
  run w calls (cli_main pretty env argv2)
  = match run w calls (validateAndQuery config query None) with
    | (c, Returned data) =>
        (c, Returned {| stdout := [pretty data]; stderr := infoLines; exitCode := 0 |})
    | (c, Raised e) =>
        (c, Returned {| stdout := [];
                        stderr := infoLines ++ [errorLine e];
                        exitCode := 1 |})
    end
  /\ (forall a, argv2 = Some a -> trim a <> [] -> query = trim a)
  /\ (argv2 = None \/ (exists a, argv2 = Some a /\ trim a = []) ->
      exists raw, env (lit "SHOPIFY_GRAPHQL") = Some raw /\ query = trim raw).
Proof.
  intros Hd Ht Hq config. rewrite cli_main_run, Hd, Ht, Hq.
  split; [reflexivity|]. unfold chosenQuery in Hq. split.
  - intros a -> Hne. apply nonEmpty_true in Hne. rewrite Hne in Hq. congruence.
  - assert (He : envValue env (lit "SHOPIFY_GRAPHQL") = Some query ->
                 exists raw, env (lit "SHOPIFY_GRAPHQL") = Some raw /\ query = trim raw).
    { unfold envValue. destruct (env (lit "SHOPIFY_GRAPHQL")) as [raw|]; [|discriminate].
      destruct (nonEmpty (trim raw)); [|discriminate]. intros [= <-]. eauto. }
    intros [-> | [a [-> Hblank]]]; [now apply He|].
    rewrite Hblank in Hq. now apply He.
Qed.

Lemma standalone_getRequiredScopes_core (env : Env) :
  standalone_getRequiredScopes env = getRequiredScopes (env (lit "SHOPIFY_SCOPES")).
Proof. reflexivity. Qed.

Lemma standalone_getMissingScopes_core (shop token : jsstring)
    (requiredScopes : list jsstring) :
  standalone_getMissingScopes shop token requiredScopes
  = getMissingScopes shop token requiredScopes.
Proof. reflexivity. Qed.

Lemma standalone_runShopifyQuery_core (env : Env) (shop token query : jsstring)
    (variables : option json) :
  standalone_runShopifyQuery env shop token query variables
  = runShopifyQuery {| gp_shop := shop;
                       gp_accessToken := token;
                       gp_query := query;
                       gp_variables := variables;
                       gp_apiVersion := Some (effectiveVersion (env (lit "SHOPIFY_API_VERSION"))) |}.
Proof. reflexivity. Qed.

Lemma error_prefix_split :
  lit "[error] Shopify 应用缺少以下授权：" = lit "[error] " ++ lit "Shopify 应用缺少以下授权：".
Proof. vm_compute. reflexivity. Qed.

(** Every way [standalone_main] ends. *)
Lemma standalone_main_run (pretty : json -> jsstring) (w : platform)
    (calls : list FetchRequest) (env : Env) :
  run w calls (standalone_main pretty env)
  = match envValue env (lit "SHOP_DOMAIN") with
    | None => (calls, Returned {| stdout := [];
                                  stderr := [errorLine (missingVariable (lit "SHOP_DOMAIN"))];
                                  exitCode := 1 |})
    | Some domain =>
        match envValue env (lit "SHOP_ACCESS_TOKEN") with
        | None => (calls, Returned {| stdout := [];
                                      stderr := [errorLine (missingVariable (lit "SHOP_ACCESS_TOKEN"))];
                                      exitCode := 1 |})
        | Some token =>
            match envValue env (lit "SHOPIFY_GRAPHQL") with
            | None => (calls, Returned {| stdout := [];
                                          stderr := [errorLine (missingVariable (lit "SHOPIFY_GRAPHQL"))];
                                          exitCode := 1 |})
            | Some query =>
                match run w calls (getMissingScopes domain token
                                     (getRequiredScopes (env (lit "SHOPIFY_SCOPES")))) with
                | (c, Raised e) =>
                    (c, Returned {| stdout := [];
                                    stderr := [lit "[info] 正在校验 Shopify 授权 scope...";
                                               errorLine e];
                                    exitCode := 1 |})
                | (c, Returned (m :: ms)) =>
                    (c, Returned {| stdout := [];
                                    stderr := [lit "[info] 正在校验 Shopify 授权 scope...";
                                               errorLine (ErrorObject
                                                            (missingScopesMessage (m :: ms)))];
                                    exitCode := 1 |})
                | (c, Returned []) =>
                    match run w c
                            (runShopifyQuery
                               {| gp_shop := domain;
                                  gp_accessToken := token;
                                  gp_query := query;
                                  gp_variables := None;
                                  gp_apiVersion :=
                                    Some (effectiveVersion (env (lit "SHOPIFY_API_VERSION"))) |}) with
                    | (c', Returned data) =>
                        (c', Returned {| stdout := [pretty data];
                                         stderr := infoLines;
                                         exitCode := 0 |})
                    | (c', Raised e) =>
                        (c', Returned {| stdout := [];
                                         stderr := infoLines ++ [errorLine e];
                                         exitCode := 1 |})
                    end
                end
            end
        end
    end.
Proof.
  unfold standalone_main. rewrite run_catch, run_bind, run_requireEnv by apply own_names.
  destruct (envValue env (lit "SHOP_DOMAIN")) as [domain|]; [|reflexivity].
  rewrite run_bind, run_requireEnv by apply own_names.
  destruct (envValue env (lit "SHOP_ACCESS_TOKEN")) as [token|]; [|reflexivity].
  rewrite run_bind, run_requireEnv by apply own_names.
  destruct (envValue env (lit "SHOPIFY_GRAPHQL")) as [query|]; [|reflexivity].
  cbv zeta. rewrite run_catch, run_bind.
  rewrite standalone_getMissingScopes_core, standalone_getRequiredScopes_core.
  destruct (run w calls (getMissingScopes domain token _)) as [c [[|m ms]|e]].
  - cbn [length Nat.ltb Nat.leb]. rewrite run_catch, run_bind.
    rewrite standalone_runShopifyQuery_core.
    destruct (run w c (runShopifyQuery _)) as [c' [data|e]]; reflexivity.
  - cbn [length Nat.ltb Nat.leb run]. unfold errorLine, missingScopesMessage.
    rewrite error_prefix_split, <- app_assoc. reflexivity.
  - reflexivity.
Qed.

(** X20.  Run without a command-line argument, the standalone script and
    the script built on [validateAndQuery] do the same on every environment
    and every platform: the same calls, the same exit status, the same
    standard output, and the same last line on the error stream. *)
Theorem standalone_main_agrees_with_cli_main
    (pretty : json -> jsstring) (w : platform) (calls : list FetchRequest)
    (env : Env) :
  exists calls' r1 r2,
    run w calls (standalone_main pretty env) = (calls', Returned r1)
    /\ run w calls (cli_main pretty env None) = (calls', Returned r2)
    /\ stdout r1 = stdout r2
    /\ exitCode r1 = exitCode r2
    /\ last (stderr r1) = last (stderr r2).
Proof.
  rewrite standalone_main_run, cli_main_run. cbn [chosenQuery].
  destruct (envValue env (lit "SHOP_DOMAIN")) as [domain|];
    [|do 3 eexists; repeat split].
  destruct (envValue env (lit "SHOP_ACCESS_TOKEN")) as [token|];
    [|do 3 eexists; repeat split].
  destruct (envValue env (lit "SHOPIFY_GRAPHQL")) as [query|];
    [|do 3 eexists; repeat split].
  rewrite validateAndQuery_run. cbn [shopDomain accessToken scopes apiVersion].
  destruct (run w calls (getMissingScopes domain token _)) as [c [[|m ms]|e]].
  - destruct (run w c (runShopifyQuery _)) as [c' [data|e]];
      do 3 eexists; repeat split.
  - do 3 eexists. repeat split.
  - do 3 eexists. repeat split.
Qed.

End Program.

(** ** Further properties: routes that need no secret *)

(** X13.  Only a POST to [/graphql] is checked against the secret and has
    its body read: two requests with the same method and the same path, not
    both POST and [/graphql], get the same answer whatever their
    Authorization headers and bodies are and whatever secret is configured,
    and no call to the platform is made. *)
Theorem other_routes_ignore_secret_and_body
    (JSON_stringify : json -> jsstring) (TypeError_message : fault -> jsstring)
    (key1 key2 : option jsstring) (w : platform) (calls : list FetchRequest)
    (config : ShopifyConfig) (req1 req2 : IncomingMessage) :
  req_method req1 = req_method req2 ->
  req_pathname req1 = req_pathname req2 ->
  ~ (req_method req1 = lit "POST" /\ req_pathname req1 = inr (lit "/graphql")) ->
  run w calls (requestListener JSON_stringify TypeError_message key1 config req1)
  = run w calls (requestListener JSON_stringify TypeError_message key2 config req2)
  /\ fst (run w calls (requestListener JSON_stringify TypeError_message key1 config req1))
     = calls.
Proof.
  intros Hm Hp Hnot.
  destruct (req_pathname req2) as [e|pathname] eqn:Hp2.
  { unfold requestListener. rewrite Hp, Hp2. now split. }
  rewrite (requestListener_routes _ _ key1 _ req1 pathname Hp),
          (requestListener_routes _ _ key2 _ req2 pathname Hp2), <- Hm.
  destruct (bool_decide (req_method req1 = lit "OPTIONS")); [now split|].
  destruct (bool_decide (pathname = lit "/health") || bool_decide (pathname = lit "/"));
    [now split|].
  destruct (bool_decide (pathname = lit "/graphql")) eqn:Hg; [|now split].
  destruct (bool_decide (req_method req1 = lit "POST")) eqn:Hpost.
  { exfalso. apply Hnot. apply bool_decide_eq_true in Hg, Hpost. subst pathname.
    now split. }
  destruct (bool_decide (req_method req1 = lit "GET")); now split.
Qed.


(** ** Worked examples *)

Import Runtime.

(** The spec's scenario: [read_orders,read_products] required, and
    [read_products] granted (with white space around it, and an empty
    handle beside it). *)
Lemma getMissingScopes_example :
  exists missing,
    run (Demo.granting [lit " read_products "; []] Demo.shopName) []
      (getMissingScopes typeErrorMessage (lit "demo.myshop.test") (lit "shpat_example")
         [lit "read_orders"; lit "read_products"])
    = ([scopesRequest (lit "demo.myshop.test") (lit "shpat_example")], Returned missing)
    /\ missing = [lit "read_orders"].
Proof.
  destruct (getMissingScopes_is_ordered_difference typeErrorMessage
              (Demo.granting [lit " read_products "; []] Demo.shopName) []
              (lit "demo.myshop.test") (lit "shpat_example")
              [lit "read_orders"; lit "read_products"]
              (Demo.okResponse (Demo.scopesData [lit " read_products "; []]))
              (Demo.scopesData [lit " read_products "; []])
              [lit " read_products "; []])
    as [missing [Hrun [Heq _]]].
  - reflexivity.
  - reflexivity.
  - reflexivity.
  - eexists. split; [reflexivity|].
    repeat constructor; eexists; (split; [reflexivity|]); reflexivity.
  - exists missing. split; [exact Hrun|]. rewrite Heq. vm_compute. reflexivity.
Defined.

(** The spec's scenario: [read_orders] is missing, so the orchestration
    fails with the error naming it, after the scope request alone. *)
Lemma validateAndQuery_missing_scope_example :
  run (Demo.granting [lit "read_products"] Demo.shopName) []
    (validateAndQuery stringify typeErrorMessage Demo.config Demo.shopQuery None)
  = ([scopesRequest (lit "demo.myshop.test") (lit "shpat_example")],
     Raised (ErrorObject
               (lit "Shopify 应用缺少以下授权：read_orders。请重新安装应用以授予这些 scope。"))).
Proof.
  pose proof (validateAndQuery_checks_scopes_before_forwarding stringify typeErrorMessage
                (Demo.granting [lit "read_products"] Demo.shopName) []
                Demo.config Demo.shopQuery None) as H.
  cbv zeta in H. destruct H as [_ H].
  destruct (H [lit "read_orders"]) as [Hr _].
  - vm_compute. reflexivity.
  - discriminate.
  - rewrite Hr. vm_compute. reflexivity.
Defined.

(** The spec's other scenario: both scopes granted, the platform's [data]
    is returned, after the scope request and the query request. *)
Example validateAndQuery_granted_example :
  run (Demo.granting [lit "read_orders"; lit "read_products"]
         (JObj [(lit "data", Demo.shopName)])) []
    (validateAndQuery stringify typeErrorMessage Demo.config Demo.shopQuery None)
  = ([scopesRequest (lit "demo.myshop.test") (lit "shpat_example");
      graphqlRequest stringify Demo.params],
     Returned Demo.shopName).
Proof. vm_compute. reflexivity. Qed.

(** A response with [data] and one error: the call fails with the
    serialized error list. *)
Lemma runShopifyQuery_errors_example :
  snd (run (Demo.granting [] Demo.withErrors) []
         (runShopifyQuery stringify typeErrorMessage Demo.params))
  = Raised (ErrorObject
              (lit "Shopify GraphQL errors: "
                 ++ stringify (JArr [JObj [(lit "message", JStr (lit "Throttled"))]]))).
Proof.
  pose proof (runShopifyQuery_fails_iff_errors_truthy stringify typeErrorMessage
                (Demo.granting [] Demo.withErrors) [] Demo.params
                (Demo.okResponse Demo.withErrors) Demo.withErrors) as H.
  cbv zeta in H. destruct H as [_ [_ [H _]]].
  - reflexivity.
  - reflexivity.
  - reflexivity.
  - discriminate.
  - apply H. reflexivity.
Defined.

(** C3, as stated, fails: with [errors: []] beside [data] the call does
    not return the data, it fails with [Shopify GraphQL errors: []]. *)
Lemma runShopifyQuery_empty_errors_fails :
  snd (run (Demo.granting [] Demo.emptyErrors) []
         (runShopifyQuery stringify typeErrorMessage Demo.params))
  = Raised (ErrorObject (lit "Shopify GraphQL errors: []"))
  /\ snd (run (Demo.granting [] Demo.emptyErrors) []
            (runShopifyQuery stringify typeErrorMessage Demo.params))
     <> Returned Demo.shopName.
Proof. split; [vm_compute; reflexivity | vm_compute; discriminate]. Qed.

(** A response with [data] only: the value of [data] is returned. *)
Lemma runShopifyQuery_data_example :
  snd (run (Demo.granting [] (JObj [(lit "data", Demo.shopName)])) []
         (runShopifyQuery stringify typeErrorMessage Demo.params))
  = Returned Demo.shopName.
Proof.
  pose proof (runShopifyQuery_returns_data_or_response stringify typeErrorMessage
                (Demo.granting [] (JObj [(lit "data", Demo.shopName)])) []
                Demo.params
                (Demo.okResponse (JObj [(lit "data", Demo.shopName)]))
                (JObj [(lit "data", Demo.shopName)])) as H.
  cbv zeta in H. destruct H as [H _].
  - reflexivity.
  - reflexivity.
  - reflexivity.
  - discriminate.
  - reflexivity.
  - apply H; [reflexivity | discriminate].
Defined.

(** C8, as stated, fails: [data] is present in [{ data: null }], and the
    call returns the whole response, not the value [null] of the field. *)
Lemma runShopifyQuery_null_data_returns_response :
  snd (run (Demo.granting [] Demo.nullData) []
         (runShopifyQuery stringify typeErrorMessage Demo.params))
  = Returned (JObj [(lit "data", JNull)])
  /\ ownProp Demo.nullData (lit "data") = Some JNull
  /\ snd (run (Demo.granting [] Demo.nullData) []
            (runShopifyQuery stringify typeErrorMessage Demo.params))
     <> Returned JNull.
Proof.
  split; [vm_compute; reflexivity|].
  split; [vm_compute; reflexivity | vm_compute; discriminate].
Qed.

(** C5, as stated, fails: a scope written twice is listed twice. *)
Lemma getRequiredScopes_keeps_duplicates :
  getRequiredScopes (Some (lit "read_orders,read_orders"))
  = [lit "read_orders"; lit "read_orders"]
  /\ ~ NoDup (getRequiredScopes (Some (lit "read_orders,read_orders"))).
Proof.
  split; [vm_compute; reflexivity|].
  intros H. apply NoDup_cons_1_1 in H. apply H. apply list_elem_of_here.
Qed.

(** C4: a POST to [/graphql] whose body is not JSON is answered 500,
    through the handler of thrown errors, not 400; no call is made. *)
Theorem invalid_json_body_is_answered_500 :
  run (Demo.granting [] JNull) []
    (requestListener stringify typeErrorMessage None Demo.config Demo.notJson)
  = ([], Returned (sendError stringify 500 (lit "Invalid JSON body")))
  /\ statusCode (sendError stringify 500 (lit "Invalid JSON body")) = 500.
Proof. repeat split; vm_compute; reflexivity. Qed.


(** The secret itself as header, with no prefix: 200 as well. *)
Example graphql_with_bare_secret_example :
  run (Demo.granting [lit "read_orders"; lit "read_products"]
         (JObj [(lit "data", Demo.shopName)])) []
    (requestListener stringify typeErrorMessage (Some (lit " s3cret ")) Demo.config
       (Demo.request (lit "POST") (lit "/graphql") (Some (lit "s3cret"))))
  = ([scopesRequest (lit "demo.myshop.test") (lit "shpat_example");
      graphqlRequest stringify Demo.params],
     Returned (sendJson stringify 200 (JObj [(lit "data", Demo.shopName)]))).
Proof. vm_compute. reflexivity. Qed.

(** The same request without the header: 401, and no call is made. *)
Example graphql_without_secret_example :
  run (Demo.granting [lit "read_orders"; lit "read_products"]
         (JObj [(lit "data", Demo.shopName)])) []
    (requestListener stringify typeErrorMessage (Some (lit " s3cret ")) Demo.config
       (Demo.request (lit "POST") (lit "/graphql") None))
  = ([], Returned (sendError stringify 401 (lit "Unauthorized: Invalid or missing API key"))).
Proof. vm_compute. reflexivity. Qed.



(** C9: with the secret [Bearer abc] configured, the header that is the
    bare secret, [Bearer abc], is refused: its prefix is cut off and [abc]
    is compared with the secret.  The request is answered 401. *)
Theorem bare_secret_starting_with_Bearer_is_refused :
  API_KEY (Some (lit "Bearer abc")) = Some (lit "Bearer abc")
  /\ validateApiKey (Some (lit "Bearer abc"))
       (Demo.request (lit "POST") (lit "/graphql") (Some (lit "Bearer abc")))
     = false
  /\ run (Demo.granting [lit "read_orders"; lit "read_products"]
            (JObj [(lit "data", Demo.shopName)])) []
       (requestListener stringify typeErrorMessage (Some (lit "Bearer abc")) Demo.config
          (Demo.request (lit "POST") (lit "/graphql") (Some (lit "Bearer abc"))))
     = ([], Returned (sendError stringify 401
                        (lit "Unauthorized: Invalid or missing API key"))).
Proof. repeat split; vm_compute; reflexivity. Qed.

(** GET on [/graphql]: the introspection stub carries the CORS headers. *)
Lemma introspection_cors_example : corsHeaders (handleIntrospection stringify).
Proof.
  pose proof every_json_response_has_cors_headers as H.
  destruct (H stringify typeErrorMessage None) as [_ Hrun].
  apply (Hrun (Demo.granting [] JNull) [] [] Demo.config
           (Demo.request (lit "GET") (lit "/graphql") None)).
  vm_compute. reflexivity.
Defined.

(** ** Worked examples for the further properties *)

Import RuntimePretty.

(** [SHOP_DOMAIN] is set with white space around it: the trimmed value. *)
Lemma requireEnv_example :
  run DemoEnv.offline [] (requireEnv typeErrorMessage DemoEnv.full (lit "SHOP_DOMAIN"))
  = ([], Returned (lit "demo.myshop.test")).
Proof.
  assert (H1 : DemoEnv.full (lit "SHOP_DOMAIN") = Some (lit " demo.myshop.test "))
    by (vm_compute; reflexivity).
  assert (H2 : trim (lit " demo.myshop.test ") <> []) by (vm_compute; discriminate).
  destruct (requireEnv_value_or_error typeErrorMessage DemoEnv.offline [] DemoEnv.full
              (lit "SHOP_DOMAIN")) as [H _].
  rewrite (H _ H1 H2). vm_compute. reflexivity.
Defined.

(** The scope check of the first scenario returned a list: the platform
    had answered with a scope list. *)
Lemma getMissingScopes_returned_example :
  exists res data hs,
    Demo.granting [lit "read_products"] Demo.shopName []
      (scopesRequest (lit "demo.myshop.test") (lit "shpat_example")) = inr res
    /\ res_ok res = true
    /\ res_json res = inr data
    /\ scopeList data hs.
Proof.
  apply (getMissingScopes_returns_only_for_scope_list typeErrorMessage
           (Demo.granting [lit "read_products"] Demo.shopName) []
           [scopesRequest (lit "demo.myshop.test") (lit "shpat_example")]
           (lit "demo.myshop.test") (lit "shpat_example")
           [lit "read_orders"; lit "read_products"] [lit "read_orders"]).
  vm_compute. reflexivity.
Defined.

(** The scope request answered 503. *)
Lemma getMissingScopes_unavailable_example :
  run DemoEnv.unavailable []
    (getMissingScopes typeErrorMessage (lit "demo.myshop.test") (lit "shpat_example")
       [lit "read_orders"])
  = ([scopesRequest (lit "demo.myshop.test") (lit "shpat_example")],
     Raised (ErrorObject
               (lit "获取 Shopify 授权 scope 失败 (503 Service Unavailable): try later"))).
Proof.
  rewrite (getMissingScopes_upstream_failure typeErrorMessage DemoEnv.unavailable []
             (lit "demo.myshop.test") (lit "shpat_example") [lit "read_orders"]
             {| res_status := 503;
                res_statusText := lit "Service Unavailable";
                res_text := inr (lit "try later");
                res_json := inl (ErrorObject (lit "Unexpected token")) |}
             (lit "try later")); [vm_compute; reflexivity | reflexivity ..].
Defined.

(** The query request answered 503. *)
Lemma runShopifyQuery_unavailable_example :
  run DemoEnv.unavailable [] (runShopifyQuery stringify typeErrorMessage Demo.params)
  = ([graphqlRequest stringify Demo.params],
     Raised (ErrorObject (lit "Shopify API error (503 Service Unavailable): try later"))).
Proof.
  rewrite (runShopifyQuery_upstream_failure stringify typeErrorMessage DemoEnv.unavailable []
             Demo.params
             {| res_status := 503;
                res_statusText := lit "Service Unavailable";
                res_text := inr (lit "try later");
                res_json := inl (ErrorObject (lit "Unexpected token")) |}
             (lit "try later")); [vm_compute; reflexivity | reflexivity ..].
Defined.

(** The platform cannot be reached: the orchestration fails as [fetch]
    did, after the scope request. *)
Lemma validateAndQuery_offline_example :
  run DemoEnv.offline []
    (validateAndQuery stringify typeErrorMessage Demo.config Demo.shopQuery None)
  = ([scopesRequest (lit "demo.myshop.test") (lit "shpat_example")],
     Raised (ErrorObject (lit "fetch failed"))).
Proof.
  apply (validateAndQuery_propagates_scope_check_failure stringify typeErrorMessage
           DemoEnv.offline []
           [scopesRequest (lit "demo.myshop.test") (lit "shpat_example")]
           Demo.config Demo.shopQuery None (ErrorObject (lit "fetch failed"))).
  vm_compute. reflexivity.
Defined.

(** Both scopes granted: the scope request, then the query request for
    the version [2024-10]. *)
Lemma validateAndQuery_forwards_example :
  fst (run (Demo.granting [lit "read_orders"; lit "read_products"]
              (JObj [(lit "data", Demo.shopName)])) []
         (validateAndQuery stringify typeErrorMessage Demo.config Demo.shopQuery None))
  = [scopesRequest (lit "demo.myshop.test") (lit "shpat_example");
     graphqlRequest stringify Demo.params].
Proof.
  pose proof (validateAndQuery_forwards_when_nothing_missing stringify typeErrorMessage
                (Demo.granting [lit "read_orders"; lit "read_products"]
                   (JObj [(lit "data", Demo.shopName)])) []
                [scopesRequest (lit "demo.myshop.test") (lit "shpat_example")]
                Demo.config Demo.shopQuery None) as H.
  cbv zeta in H. destruct H as [_ [H _]].
  - vm_compute. reflexivity.
  - rewrite H. vm_compute. reflexivity.
Defined.

(** The configuration the server starts with: the domain is trimmed. *)
Lemma serverConfig_example :
  shopDomain Demo.config <> []
  /\ trim (shopDomain Demo.config) = shopDomain Demo.config
  /\ accessToken Demo.config <> []
  /\ trim (accessToken Demo.config) = accessToken Demo.config.
Proof.
  destruct (serverConfig_requires_domain_and_token typeErrorMessage DemoEnv.offline []
              DemoEnv.full) as [_ H].
  apply (H [] Demo.config). vm_compute. reflexivity.
Defined.

(** The platform cannot be reached: the request is answered 500 with the
    message of the error, after the scope request. *)
Lemma graphql_offline_example :
  exists resp,
    run DemoEnv.offline []
      (handleGraphQLRequest stringify typeErrorMessage None
         (Demo.request (lit "POST") (lit "/graphql") None) Demo.config)
    = ([scopesRequest (lit "demo.myshop.test") (lit "shpat_example")], Returned resp)
    /\ resp = sendJson stringify 500 (errorsPayload (lit "fetch failed"))
    /\ statusCode resp = 500
    /\ body resp
       = stringify
           (JObj [(lit "errors",
                   JArr [JObj [(lit "message", JStr (lit "fetch failed"))]])]).
Proof.
  destruct (handleGraphQLRequest_answers_500_on_failure stringify typeErrorMessage None
              DemoEnv.offline [] (Demo.request (lit "POST") (lit "/graphql") None)
              Demo.config) as [_ H].
  - reflexivity.
  - apply (H [] [(lit "query", JStr Demo.shopQuery)] Demo.shopQuery
             [scopesRequest (lit "demo.myshop.test") (lit "shpat_example")]
             (ErrorObject (lit "fetch failed"))).
    + reflexivity.
    + vm_compute. reflexivity.
    + discriminate.
    + vm_compute. reflexivity.
Defined.

(** [read_orders] is missing: the request is answered 500 with the message
    naming it. *)
Lemma graphql_missing_scope_example :
  exists resp,
    run (Demo.granting [lit "read_products"] Demo.shopName) []
      (requestListener stringify typeErrorMessage None Demo.config
         (Demo.request (lit "POST") (lit "/graphql") None))
    = ([] ++ [scopesRequest (shopDomain Demo.config) (accessToken Demo.config)],
       Returned resp)
    /\ resp = sendJson stringify 500
                (errorsPayload (lit "Shopify 应用缺少以下授权：" ++ join (lit ", ") [lit "read_orders"]
                                  ++ lit "。请重新安装应用以授予这些 scope。"))
    /\ statusCode resp = 500
    /\ body resp
       = stringify
           (JObj [(lit "errors",
                   JArr [JObj [(lit "message",
                                JStr (lit "Shopify 应用缺少以下授权：" ++ join (lit ", ") [lit "read_orders"]
                                        ++ lit "。请重新安装应用以授予这些 scope。"))]])]).
Proof.
  apply (missing_scopes_are_answered_500 stringify typeErrorMessage None
           (Demo.granting [lit "read_products"] Demo.shopName) []
           [scopesRequest (lit "demo.myshop.test") (lit "shpat_example")]
           (Demo.request (lit "POST") (lit "/graphql") None) Demo.config
           [] [(lit "query", JStr Demo.shopQuery)] Demo.shopQuery [lit "read_orders"]).
  - reflexivity.
  - reflexivity.
  - reflexivity.
  - reflexivity.
  - vm_compute. reflexivity.
  - discriminate.
  - vm_compute. reflexivity.
  - discriminate.
Defined.

(** A request to an unknown path is answered. *)
Lemma unknown_path_is_answered_example :
  exists calls' resp,
    run DemoEnv.offline []
      (requestListener stringify typeErrorMessage None Demo.config
         (Demo.request (lit "GET") (lit "/metrics") None))
    = (calls', Returned resp).
Proof.
  destruct (requestListener_always_answers stringify typeErrorMessage None DemoEnv.offline []
              Demo.config (Demo.request (lit "GET") (lit "/metrics") None)) as [H _].
  apply (H (lit "/metrics")). reflexivity.
Defined.

(** The run of the second scenario made calls: it was a POST to [/graphql]
    and the first call was the scope request. *)
Lemma graphql_calls_example :
  req_method (Demo.request (lit "POST") (lit "/graphql") None) = lit "POST"
  /\ exists rest,
       [scopesRequest (lit "demo.myshop.test") (lit "shpat_example");
        graphqlRequest stringify Demo.params]
       = [] ++ scopesRequest (shopDomain Demo.config) (accessToken Demo.config) :: rest.
Proof.
  destruct (platform_is_called_only_for_accepted_queries stringify typeErrorMessage None
              (Demo.granting [lit "read_orders"; lit "read_products"]
                 (JObj [(lit "data", Demo.shopName)])) []
              [scopesRequest (lit "demo.myshop.test") (lit "shpat_example");
               graphqlRequest stringify Demo.params]
              Demo.config (Demo.request (lit "POST") (lit "/graphql") None)
              (Returned (sendJson stringify 200 (JObj [(lit "data", Demo.shopName)]))))
    as [H1 [_ [_ [_ H2]]]].
  - vm_compute. reflexivity.
  - discriminate.
  - split; [exact H1 | exact H2].
Defined.

(** OPTIONS on an unknown path, with a secret configured and no header:
    the preflight answer. *)
Lemma options_example :
  run DemoEnv.offline []
    (requestListener stringify typeErrorMessage (Some (lit "s3cret")) Demo.config
       (Demo.request (lit "OPTIONS") (lit "/metrics") None))
  = ([], Returned preflight).
Proof.
  apply (options_is_answered_before_routing stringify typeErrorMessage (Some (lit "s3cret"))
           DemoEnv.offline [] Demo.config
           (Demo.request (lit "OPTIONS") (lit "/metrics") None) (lit "/metrics"));
    reflexivity.
Defined.

(** GET on [/graphql]: the same answer with a secret configured and no
    header as with no secret and a header. *)
Lemma get_graphql_needs_no_secret_example :
  run DemoEnv.offline []
    (requestListener stringify typeErrorMessage (Some (lit "s3cret")) Demo.config
       (Demo.request (lit "GET") (lit "/graphql") None))
  = run DemoEnv.offline []
      (requestListener stringify typeErrorMessage None Demo.config
         (Demo.request (lit "GET") (lit "/graphql") (Some (lit "Bearer other")))).
Proof.
  apply (other_routes_ignore_secret_and_body stringify typeErrorMessage
           (Some (lit "s3cret")) None DemoEnv.offline [] Demo.config
           (Demo.request (lit "GET") (lit "/graphql") None)
           (Demo.request (lit "GET") (lit "/graphql") (Some (lit "Bearer other")))).
  - reflexivity.
  - reflexivity.
  - intros [H _]. vm_compute in H. discriminate.
Defined.

(** The answer to DELETE on [/graphql] is 405: the path was [/graphql]
    and the method neither POST nor GET. *)
Lemma status_405_example :
  req_pathname (Demo.request (lit "DELETE") (lit "/graphql") None) = inr (lit "/graphql")
  /\ req_method (Demo.request (lit "DELETE") (lit "/graphql") None) <> lit "POST"
  /\ req_method (Demo.request (lit "DELETE") (lit "/graphql") None) <> lit "GET"
  /\ @nil FetchRequest = [].
Proof.
  destruct (status_tells_the_cause stringify typeErrorMessage None DemoEnv.offline [] []
              Demo.config (Demo.request (lit "DELETE") (lit "/graphql") None)
              (sendError stringify 405
                 (lit "Method not allowed. Use POST for GraphQL queries.")))
    as [_ [_ [_ [H _]]]].
  - vm_compute. reflexivity.
  - apply H. reflexivity.
Defined.

(** Two bodies that differ in [operationName] only: the same run. *)
Lemma operationName_is_ignored_example :
  run (Demo.granting [lit "read_orders"; lit "read_products"]
         (JObj [(lit "data", Demo.shopName)])) []
    (requestListener stringify typeErrorMessage None Demo.config
       (DemoEnv.namedOperation (JStr (lit "ShopName"))))
  = run (Demo.granting [lit "read_orders"; lit "read_products"]
           (JObj [(lit "data", Demo.shopName)])) []
      (requestListener stringify typeErrorMessage None Demo.config
         (DemoEnv.namedOperation JNull)).
Proof.
  apply (only_query_and_variables_are_read stringify typeErrorMessage None
           (Demo.granting [lit "read_orders"; lit "read_products"]
              (JObj [(lit "data", Demo.shopName)])) [] Demo.config
           (DemoEnv.namedOperation (JStr (lit "ShopName")))
           (DemoEnv.namedOperation JNull) [] []
           (JObj [(lit "query", JStr Demo.shopQuery);
                  (lit "variables", JObj []);
                  (lit "operationName", JStr (lit "ShopName"))])
           (JObj [(lit "query", JStr Demo.shopQuery);
                  (lit "variables", JObj []);
                  (lit "operationName", JNull)]));
    try reflexivity; try discriminate; vm_compute; reflexivity.
Defined.

(** The token is blank: exit status 1, one error line, no call. *)
Lemma cli_blank_token_example :
  exists name,
    name ∈ [lit "SHOP_DOMAIN"; lit "SHOP_ACCESS_TOKEN"; lit "SHOPIFY_GRAPHQL"]
    /\ envValue DemoEnv.blankToken name = None
    /\ run DemoEnv.offline []
         (cli_main stringify typeErrorMessage stringifyPretty DemoEnv.blankToken
            (Some Demo.shopQuery))
       = ([], Returned {| stdout := [];
                          stderr := [lit "[error] " ++ lit "缺少环境变量 " ++ name];
                          exitCode := 1 |}).
Proof.
  apply (cli_main_missing_input stringify typeErrorMessage stringifyPretty DemoEnv.offline
           [] DemoEnv.blankToken (Some Demo.shopQuery)).
  right. left. vm_compute. reflexivity.
Defined.

(** The query given as argument, with both scopes granted: the result is
    printed and the exit status is 0. *)
Lemma cli_argument_example :
  run (Demo.granting [lit "read_orders"; lit "read_products"]
         (JObj [(lit "data", Demo.shopName)])) []
    (cli_main stringify typeErrorMessage stringifyPretty DemoEnv.full
       (Some (lit "  query { shop { name } }  ")))
  = ([scopesRequest (lit "demo.myshop.test") (lit "shpat_example");
      graphqlRequest stringify Demo.params],
     Returned {| stdout := [stringifyPretty Demo.shopName];
                 stderr := infoLines;
                 exitCode := 0 |}).
Proof.
  pose proof (cli_main_runs_the_orchestration stringify typeErrorMessage stringifyPretty
                (Demo.granting [lit "read_orders"; lit "read_products"]
                   (JObj [(lit "data", Demo.shopName)])) []
                DemoEnv.full (Some (lit "  query { shop { name } }  "))
                (lit "demo.myshop.test") (lit "shpat_example") Demo.shopQuery) as H.
  cbv zeta in H. destruct H as [H _].
  - vm_compute. reflexivity.
  - vm_compute. reflexivity.
  - vm_compute. reflexivity.
  - rewrite H. vm_compute. reflexivity.
Defined.
